(** * PyVE: a shallow embedding of [PyVE.py]

    The dashboard is a single-threaded, timer- and click-driven PyQt program
    around one global Proxmox handle.  The embedding keeps that shape:

    - the widgets the callbacks write, the global [proxmox] handle and the
      effects a callback leaves behind (log lines, message boxes, one-shot
      timers, API requests, sleeps) are fields of one record [App];
    - every method is a computation in a state-and-exception monad over [App],
      with Python's [try]/[except] as a combinator;
    - the Proxmox server is outside the program: what each request answers
      (or raises) is given by an environment [Env];
    - a Python float is the rational ([Q]) it stands for: every float
      operation rounds its exact result to the nearest binary64 value, ties to
      even, and a result of magnitude [2^1024] or more stands for infinity;
      [int(x)] truncates toward zero and raises on infinity, [round] rounds
      half to even, [:.1f] prints one decimal;
    - an [int] is unbounded ([Z]); [QProgressBar.setValue] takes a C [int] and
      raises [OverflowError] on a Python [int] outside it. *)

From Stdlib Require Import ZArith QArith Qround Qpower Qreduction Qabs Lqa.
From Stdlib Require Import Bool List Ascii String Lia.
From Stdlib Require Import Sorted Permutation.
Import ListNotations.

Local Open Scope string_scope.
Local Open Scope Z_scope.

(** ** Text: [str(int)], [int(str)] and the pattern [ID:\s*(\d+)] *)

Module Text.

(** The decimal digit [d] (0..9) as a character. *)
Definition digit_char (d : Z) : ascii := ascii_of_nat (48 + Z.to_nat d).

(** [\d] on a [str], for the characters below 256: the ASCII digits. *)
Definition is_digit (c : ascii) : bool :=
  let n := nat_of_ascii c in (48 <=? n)%nat && (n <=? 57)%nat.

(** [\s] on a [str]: the characters below 256 for which [str.isspace] holds
    (tab, LF, VT, FF, CR, FS, GS, RS, US, space, NEL, NBSP). *)
Definition is_space (c : ascii) : bool :=
  let n := nat_of_ascii c in
  ((9 <=? n)%nat && (n <=? 13)%nat) || ((28 <=? n)%nat && (n <=? 32)%nat)
  || (n =? 133)%nat || (n =? 160)%nat.

Definition digit_val (c : ascii) : Z := Z.of_nat (nat_of_ascii c) - 48.

(** Decimal digits of a nonnegative [n], least significant first. *)
Fixpoint rev_digits (fuel : nat) (n : Z) : list Z :=
  match fuel with
  | O => []
  | S fuel' =>
      if n <? 10 then [n] else (n mod 10) :: rev_digits fuel' (n / 10)
  end.

(** The number a digit list (least significant first) stands for. *)
Definition value_of (ds : list Z) : Z :=
  fold_right (fun d a => d + 10 * a) 0 ds.

Definition decimal (d : Z) : Prop := 0 <= d <= 9.

Definition digits (n : Z) : list Z :=
  rev (rev_digits (S (Z.to_nat (Z.log2 n))) n).

Definition string_of_chars (l : list ascii) : string :=
  fold_right String EmptyString l.

(** [str(n)] for an [int].  (An [int] the JSON parser returned is within
    the digits CPython converts.) *)
Definition str_int (n : Z) : string :=
  if n <? 0 then String "-" (string_of_chars (map digit_char (digits (- n))))
  else string_of_chars (map digit_char (digits n)).

(** [int(s)] for a string of decimal digits.  (CPython refuses a string of
    more than 4300 digits with a [ValueError]; the ids in the rows are far
    shorter, and the limit is not modelled.) *)
Fixpoint int_acc (acc : Z) (s : string) : Z :=
  match s with
  | EmptyString => acc
  | String c s' => int_acc (10 * acc + digit_val c) s'
  end.

Definition int_str (s : string) : Z := int_acc 0 s.

(** Longest prefix of characters satisfying [p], and the rest. *)
Fixpoint span (p : ascii -> bool) (s : string) : string * string :=
  match s with
  | EmptyString => (EmptyString, EmptyString)
  | String c s' =>
      if p c then let (a, b) := span p s' in (String c a, b)
      else (EmptyString, s)
  end.

Fixpoint strip_prefix (pre s : string) : option string :=
  match pre, s with
  | EmptyString, _ => Some s
  | String a pre', String b s' =>
      if Ascii.eqb a b then strip_prefix pre' s' else None
  | String _ _, EmptyString => None
  end.

(** A match of [ID:\s*(\d+)] anchored at the start of [s]; the result is
    group 1.  [\s] and [\d] are disjoint classes, so giving back whitespace
    never produces a match that the greedy run misses: after the longest run
    of whitespace the next character is a digit or the attempt fails. *)
Definition match_ID_here (s : string) : option string :=
  match strip_prefix "ID:" s with
  | None => None
  | Some rest =>
      let (_, rest') := span is_space rest in
      let (ds, _) := span is_digit rest' in
      match ds with
      | EmptyString => None
      | _ => Some ds
      end
  end.

(** [re.search(r'ID:\s*(\d+)', s)]: the leftmost position with a match. *)
Fixpoint re_search_ID (s : string) : option string :=
  match match_ID_here s with
  | Some g => Some g
  | None =>
      match s with
      | EmptyString => None
      | String _ s' => re_search_ID s'
      end
  end.

End Text.

(** ** Numbers: Python floats as the rationals they stand for *)

Module Num.

(** [int(x)] of a finite float: truncation toward zero. *)
Definition py_int (x : Q) : Z :=
  if Qle_bool 0 x then Qfloor x else Qceiling x.

(** [round(x)]: nearest integer, a tie goes to the even neighbour. *)
Definition py_round (x : Q) : Z :=
  let f := Qfloor x in
  match Qcompare (x - inject_Z f) (1 # 2) with
  | Lt => f
  | Gt => f + 1
  | Eq => if Z.even f then f else f + 1
  end.

Definition Qpos_bool (x : Q) : bool := negb (Qle_bool x 0).

Definition pow2 (e : Z) : Q := (2 ^ e)%Q.

(** [floor(log2 x)] of a positive rational. *)
Definition ilog2 (x : Q) : Z :=
  let k := Z.log2 (Qnum x) - Z.log2 (Zpos (Qden x)) in
  if Qle_bool (pow2 k) x then k else k - 1.

(** The exponent of the last of the 53 significant bits of a double near a
    positive [x]; it is not below -1074 (subnormals). *)
Definition expo (x : Q) : Z := Z.max (ilog2 x - 52) (-1074).

(** The binary64 value nearest to a positive [x], ties to even.  No upper
    clamp: a result of [2^1024] or more stands for infinity, see [is_inf]. *)
Definition round_pos (x : Q) : Q :=
  (inject_Z (py_round (x / pow2 (expo x))) * pow2 (expo x))%Q.

(** Rounding to binary64.  The result is in lowest terms, so that equal
    numbers round to the same term.  A zero carries no sign. *)
Definition fl (x : Q) : Q :=
  let r := Qred x in
  match Qcompare r 0 with
  | Gt => Qred (round_pos r)
  | Lt => Qred (- round_pos (- r))
  | Eq => 0%Q
  end.

(** [x * y] and [x / y] on floats. *)
Definition fmul (x y : Q) : Q := fl (x * y).
Definition fdiv (x y : Q) : Q := fl (x / y).

(** The float is [inf] or [-inf]. *)
Definition is_inf (x : Q) : bool := Qle_bool (pow2 1024) (Qabs x).

(** [f"{x:.1f}"]: one decimal place, of the exact value the float has. *)
Definition format_1f (x : Q) : string :=
  if is_inf x then (if Qle_bool 0 x then "inf" else "-inf")
  else
    let n := Z.abs (py_round (x * 10)) in
    ((if Qle_bool 0 x then "" else "-")
       ++ Text.str_int (n / 10) ++ "." ++ Text.str_int (n mod 10))%string.

End Num.

(** ** What the Proxmox API answers *)

(** [status['cpuinfo']], [status['memory']] / [status['rootfs']] and the
    node status itself are dicts read with [.get(key, default)]: a missing key
    is [None] here and the default is applied where the code applies it.
    [cpu] and [wait] are the numbers the JSON text spells; the code holds the
    doubles nearest to them ([Num.fl]); a NaN, which the parser would accept,
    is not modelled.  The byte counts are [int]s. *)
Record CpuInfo := { cores : option Z; cpus : option Z }.

Record Usage := { used : option Z; total : option Z }.

Record Status := {
  cpu : option Q;
  cpuinfo : option CpuInfo;
  memory : option Usage;
  rootfs : option Usage;
  wait : option Q
}.

(** One entry of [node.qemu.get()] or [node.lxc.get()]. *)
Record Guest := {
  vmid : option Z;
  name : option string;
  status : option string
}.

Inductive Resource := vm | container.

Inductive Action := start | stop | reboot | shutdown.

(** The handle [ProxmoxAPI(...)] returns; [session] tells the handles of
    different attempts apart. *)
Record ProxmoxAPI := { session : nat }.

(** [ResourceException] and every other [Exception], with [str(e)]. *)
Inductive exn :=
| ResourceException (msg : string)
| Exception (msg : string).

Definition str_exn (e : exn) : string :=
  match e with ResourceException m => m | Exception m => m end.

Inductive outcome (A : Type) :=
| Returned (a : A)
| Raised (e : exn).

Arguments Returned {A} a.
Arguments Raised {A} e.

(** [a / b] on two [int]s, [b] not zero: the quotient rounded once, or
    [OverflowError] when it is too large for a float. *)
Definition truediv (a b : Z) : outcome Q :=
  let q := Num.fl (inject_Z a / inject_Z b) in
  if Num.is_inf q
  then Raised (Exception "integer division result too large for a float")
  else Returned q.

(** [int(x)] on a float: [OverflowError] on an infinity. *)
Definition int_float (x : Q) : outcome Z :=
  if Num.is_inf x
  then Raised (Exception "cannot convert float infinity to integer")
  else Returned (Num.py_int x).

(** The values a C [int] holds, and what the binding says of any other. *)
Definition c_int (v : Z) : bool := (-2147483648 <=? v) && (v <=? 2147483647).

Definition overflowed : exn :=
  Exception
    "argument 1 overflowed: value must be in the range -2147483648 to 2147483647".

(** The configuration constants and the server's side of every request. *)
Record Env := {
  PROXMOX_HOST : string;
  PROXMOX_NODE : string;
  VERIFY_SSL : bool;
  api_connect : nat -> outcome ProxmoxAPI;
  version_get : nat -> outcome unit;
  node_status_get : outcome Status;
  node_qemu_get : outcome (list Guest);
  node_lxc_get : outcome (list Guest);
  guest_status_post : Resource -> Z -> Action -> outcome unit
}.

(** ** Effects and widgets *)

Inductive Request :=
| NewSession
| GET_version
| GET_status (node : string)
| GET_qemu (node : string)
| GET_lxc (node : string)
| POST_status (node : string) (r : Resource) (id : Z) (verb : string).

Inductive Level := INFO | ERROR.

Inductive Icon := Warning | Critical | Question.

Inductive Slot := slot_update_stats.

Inductive Event :=
| Api (r : Request)
| Logged (lvl : Level) (msg : string)
| MessageBox (icon : Icon) (title body : string)
| SingleShot (msec : Z) (slot : Slot)
| TimerStart (msec : Z) (slot : Slot)
| Sleep (secs : Z).

(** A [QProgressBar] with the default range 0..100. *)
Record QProgressBar := { value : Z; format : string }.

Record QListWidgetItem := {
  text : string;
  background : option string;
  foreground : option string
}.

(** A list widget in the default single-selection mode. *)
Record QListWidget := {
  items : list QListWidgetItem;
  selectedRow : option nat
}.

(** The widgets the poll tick writes. *)
Record Display := {
  pyve_cpu_label : string;
  pyve_cpu_bar : QProgressBar;
  pyve_ram_label : string;
  pyve_ram_bar : QProgressBar;
  pyve_disk_label : string;
  pyve_disk_bar : QProgressBar;
  pyve_iodelay_label : string;
  pyve_iodelay_bar : QProgressBar;
  vm_list : QListWidget;
  container_list : QListWidget
}.

(** The process: the two globals, the window and the effects so far (oldest
    first). *)
Record App := {
  proxmox : option ProxmoxAPI;
  connection_error_details : option string;
  ui : Display;
  trace : list Event
}.

Module Widget.

Definition on_cpu_label (f : string -> string) (d : Display) : Display :=
  {| pyve_cpu_label := f (pyve_cpu_label d); pyve_cpu_bar := pyve_cpu_bar d;
     pyve_ram_label := pyve_ram_label d; pyve_ram_bar := pyve_ram_bar d;
     pyve_disk_label := pyve_disk_label d; pyve_disk_bar := pyve_disk_bar d;
     pyve_iodelay_label := pyve_iodelay_label d;
     pyve_iodelay_bar := pyve_iodelay_bar d;
     vm_list := vm_list d; container_list := container_list d |}.

Definition on_cpu_bar (f : QProgressBar -> QProgressBar) (d : Display) : Display :=
  {| pyve_cpu_label := pyve_cpu_label d; pyve_cpu_bar := f (pyve_cpu_bar d);
     pyve_ram_label := pyve_ram_label d; pyve_ram_bar := pyve_ram_bar d;
     pyve_disk_label := pyve_disk_label d; pyve_disk_bar := pyve_disk_bar d;
     pyve_iodelay_label := pyve_iodelay_label d;
     pyve_iodelay_bar := pyve_iodelay_bar d;
     vm_list := vm_list d; container_list := container_list d |}.

Definition on_ram_label (f : string -> string) (d : Display) : Display :=
  {| pyve_cpu_label := pyve_cpu_label d; pyve_cpu_bar := pyve_cpu_bar d;
     pyve_ram_label := f (pyve_ram_label d); pyve_ram_bar := pyve_ram_bar d;
     pyve_disk_label := pyve_disk_label d; pyve_disk_bar := pyve_disk_bar d;
     pyve_iodelay_label := pyve_iodelay_label d;
     pyve_iodelay_bar := pyve_iodelay_bar d;
     vm_list := vm_list d; container_list := container_list d |}.

Definition on_ram_bar (f : QProgressBar -> QProgressBar) (d : Display) : Display :=
  {| pyve_cpu_label := pyve_cpu_label d; pyve_cpu_bar := pyve_cpu_bar d;
     pyve_ram_label := pyve_ram_label d; pyve_ram_bar := f (pyve_ram_bar d);
     pyve_disk_label := pyve_disk_label d; pyve_disk_bar := pyve_disk_bar d;
     pyve_iodelay_label := pyve_iodelay_label d;
     pyve_iodelay_bar := pyve_iodelay_bar d;
     vm_list := vm_list d; container_list := container_list d |}.

Definition on_disk_label (f : string -> string) (d : Display) : Display :=
  {| pyve_cpu_label := pyve_cpu_label d; pyve_cpu_bar := pyve_cpu_bar d;
     pyve_ram_label := pyve_ram_label d; pyve_ram_bar := pyve_ram_bar d;
     pyve_disk_label := f (pyve_disk_label d); pyve_disk_bar := pyve_disk_bar d;
     pyve_iodelay_label := pyve_iodelay_label d;
     pyve_iodelay_bar := pyve_iodelay_bar d;
     vm_list := vm_list d; container_list := container_list d |}.

Definition on_disk_bar (f : QProgressBar -> QProgressBar) (d : Display) : Display :=
  {| pyve_cpu_label := pyve_cpu_label d; pyve_cpu_bar := pyve_cpu_bar d;
     pyve_ram_label := pyve_ram_label d; pyve_ram_bar := pyve_ram_bar d;
     pyve_disk_label := pyve_disk_label d; pyve_disk_bar := f (pyve_disk_bar d);
     pyve_iodelay_label := pyve_iodelay_label d;
     pyve_iodelay_bar := pyve_iodelay_bar d;
     vm_list := vm_list d; container_list := container_list d |}.

Definition on_iodelay_label (f : string -> string) (d : Display) : Display :=
  {| pyve_cpu_label := pyve_cpu_label d; pyve_cpu_bar := pyve_cpu_bar d;
     pyve_ram_label := pyve_ram_label d; pyve_ram_bar := pyve_ram_bar d;
     pyve_disk_label := pyve_disk_label d; pyve_disk_bar := pyve_disk_bar d;
     pyve_iodelay_label := f (pyve_iodelay_label d);
     pyve_iodelay_bar := pyve_iodelay_bar d;
     vm_list := vm_list d; container_list := container_list d |}.

Definition on_iodelay_bar (f : QProgressBar -> QProgressBar) (d : Display) : Display :=
  {| pyve_cpu_label := pyve_cpu_label d; pyve_cpu_bar := pyve_cpu_bar d;
     pyve_ram_label := pyve_ram_label d; pyve_ram_bar := pyve_ram_bar d;
     pyve_disk_label := pyve_disk_label d; pyve_disk_bar := pyve_disk_bar d;
     pyve_iodelay_label := pyve_iodelay_label d;
     pyve_iodelay_bar := f (pyve_iodelay_bar d);
     vm_list := vm_list d; container_list := container_list d |}.

Definition on_vm_list (f : QListWidget -> QListWidget) (d : Display) : Display :=
  {| pyve_cpu_label := pyve_cpu_label d; pyve_cpu_bar := pyve_cpu_bar d;
     pyve_ram_label := pyve_ram_label d; pyve_ram_bar := pyve_ram_bar d;
     pyve_disk_label := pyve_disk_label d; pyve_disk_bar := pyve_disk_bar d;
     pyve_iodelay_label := pyve_iodelay_label d;
     pyve_iodelay_bar := pyve_iodelay_bar d;
     vm_list := f (vm_list d); container_list := container_list d |}.

Definition on_container_list (f : QListWidget -> QListWidget) (d : Display) : Display :=
  {| pyve_cpu_label := pyve_cpu_label d; pyve_cpu_bar := pyve_cpu_bar d;
     pyve_ram_label := pyve_ram_label d; pyve_ram_bar := pyve_ram_bar d;
     pyve_disk_label := pyve_disk_label d; pyve_disk_bar := pyve_disk_bar d;
     pyve_iodelay_label := pyve_iodelay_label d;
     pyve_iodelay_bar := pyve_iodelay_bar d;
     vm_list := vm_list d; container_list := f (container_list d) |}.

(** [QProgressBar.setValue]: a value outside the bar's range is ignored. *)
Definition setValue (v : Z) (b : QProgressBar) : QProgressBar :=
  if (0 <=? v) && (v <=? 100) then {| value := v; format := format b |}
  else b.

Definition setFormat (f : string) (b : QProgressBar) : QProgressBar :=
  {| value := value b; format := f |}.

(** [QListWidget.clear]: removes every row, and with them the selection. *)
Definition clear (_ : QListWidget) : QListWidget :=
  {| items := []; selectedRow := None |}.

(** [QListWidget.addItem]: the row goes to the end. *)
Definition addItem (it : QListWidgetItem) (w : QListWidget) : QListWidget :=
  {| items := items w ++ [it]; selectedRow := selectedRow w |}.

(** [QListWidgetItem(text)] and [addItem(text)]: no brush set. *)
Definition item (t : string) : QListWidgetItem :=
  {| text := t; background := None; foreground := None |}.

Definition setBackground (c : string) (it : QListWidgetItem) : QListWidgetItem :=
  {| text := text it; background := Some c; foreground := foreground it |}.

Definition setForeground (c : string) (it : QListWidgetItem) : QListWidgetItem :=
  {| text := text it; background := background it; foreground := Some c |}.

(** [QListWidget.selectedItems]. *)
Definition selectedItems (w : QListWidget) : list QListWidgetItem :=
  match selectedRow w with
  | None => []
  | Some i =>
      match nth_error (items w) i with
      | Some it => [it]
      | None => []
      end
  end.

End Widget.

(** ** The state-and-exception monad of the callbacks *)

Definition M (A : Type) : Type := App -> outcome A * App.

Definition ret {A} (a : A) : M A := fun s => (Returned a, s).

Definition bind {A B} (m : M A) (k : A -> M B) : M B :=
  fun s =>
    match m s with
    | (Returned a, s') => k a s'
    | (Raised e, s') => (Raised e, s')
    end.

Definition raise {A} (e : exn) : M A := fun s => (Raised e, s).

(** [try: body / except Exception as e: handler e]. *)
Definition try_except {A} (body : M A) (handler : exn -> M A) : M A :=
  fun s =>
    match body s with
    | (Returned a, s') => (Returned a, s')
    | (Raised e, s') => handler e s'
    end.

Notation "x <- m ;; k" := (bind m (fun x => k))
  (at level 61, m at next level, right associativity).
Notation "m ;; k" := (bind m (fun _ => k))
  (at level 61, right associativity).

Definition gets {A} (f : App -> A) : M A := fun s => (Returned (f s), s).

Definition emit (e : Event) : M unit :=
  fun s =>
    (Returned tt,
     {| proxmox := proxmox s;
        connection_error_details := connection_error_details s;
        ui := ui s;
        trace := trace s ++ [e] |}).

Definition modify_ui (f : Display -> Display) : M unit :=
  fun s =>
    (Returned tt,
     {| proxmox := proxmox s;
        connection_error_details := connection_error_details s;
        ui := f (ui s);
        trace := trace s |}).

Definition set_proxmox (h : ProxmoxAPI) : M unit :=
  fun s =>
    (Returned tt,
     {| proxmox := Some h;
        connection_error_details := connection_error_details s;
        ui := ui s;
        trace := trace s |}).

Definition set_connection_error_details (msg : string) : M unit :=
  fun s =>
    (Returned tt,
     {| proxmox := proxmox s;
        connection_error_details := Some msg;
        ui := ui s;
        trace := trace s |}).

(** A request goes out, then the server's answer comes back or is raised. *)
Definition request {A} (r : Request) (answer : outcome A) : M A :=
  emit (Api r) ;;
  match answer with
  | Returned a => ret a
  | Raised e => raise e
  end.

(** An operation that returns a value or raises, the state untouched. *)
Definition lift {A} (o : outcome A) : M A :=
  match o with
  | Returned a => ret a
  | Raised e => raise e
  end.

Definition logger_info (msg : string) : M unit := emit (Logged INFO msg).
Definition logger_error (msg : string) : M unit := emit (Logged ERROR msg).

Fixpoint for_each {A} (l : list A) (body : A -> M unit) : M unit :=
  match l with
  | [] => ret tt
  | x :: l' => body x ;; for_each l' body
  end.

(** [sorted(l, key=key)]: stable, ascending by key. *)
Fixpoint insert_by {A} (key : A -> Z) (x : A) (l : list A) : list A :=
  match l with
  | [] => [x]
  | y :: l' => if key x <=? key y then x :: l else y :: insert_by key x l'
  end.

Definition sorted {A} (key : A -> Z) (l : list A) : list A :=
  fold_right (insert_by key) [] l.

(** [a] comes no later than [b] by [key]. *)
Definition le_by {A} (key : A -> Z) (a b : A) : Prop := key a <= key b.

Definition get {A} (o : option A) (default : A) : A :=
  match o with Some a => a | None => default end.

(** [str(x)] inside an f-string, for a value that may be [None]. *)
Definition fmt_int (o : option Z) (default : string) : string :=
  match o with Some n => Text.str_int n | None => default end.

Definition fmt_str (o : option string) : string :=
  match o with Some s => s | None => "None" end.

Definition is_str (o : option string) (lit : string) : bool :=
  match o with Some s => String.eqb s lit | None => false end.

(** ** Connection Manager *)

Definition max_retries : nat := 3.

Definition str_nat (n : nat) : string := Text.str_int (Z.of_nat n).

(** The [try] block of one attempt; [true] is its [return True].  Creating
    the [ProxmoxAPI] object opens the session (the request [NewSession]); the
    global is assigned once the constructor has returned.  Silencing the
    urllib3 warning when [VERIFY_SSL] is off touches nothing modelled here. *)
Definition connect_attempt (env : Env) (attempt : nat) : M bool :=
  h <- request NewSession (api_connect env attempt) ;;
  set_proxmox h ;;
  request GET_version (version_get env attempt) ;;
  logger_info ("Connected to Proxmox host " ++ PROXMOX_HOST env
               ++ " on node " ++ PROXMOX_NODE env) ;;
  ret true.

(** The [except] block; [false] lets the loop go on. *)
Definition connect_failed (attempt : nat) (e : exn) : M bool :=
  let details :=
    "Proxmox connection error (attempt " ++ str_nat (attempt + 1) ++ "/"
      ++ str_nat max_retries ++ "): " ++ str_exn e in
  set_connection_error_details details ;;
  logger_error details ;;
  (if (attempt <? max_retries - 1)%nat then emit (Sleep 2) else ret tt) ;;
  ret false.

Fixpoint connect_loop (env : Env) (range : list nat) : M bool :=
  match range with
  | [] => ret false
  | attempt :: range' =>
      done <- try_except (connect_attempt env attempt) (connect_failed attempt) ;;
      if done then ret true else connect_loop env range'
  end.

Definition initialize_proxmox_connection (env : Env) : M bool :=
  connect_loop env (seq 0 max_retries).

(** ** MonitorApp *)

Definition setText (on_label : (string -> string) -> Display -> Display)
    (t : string) : M unit :=
  modify_ui (on_label (fun _ => t)).

(** [bar.setValue(v)] from Python: the binding converts [v] to a C [int] and
    raises [OverflowError] when it does not fit; the bar itself ignores a
    value outside its range. *)
Definition setValue (on_bar : (QProgressBar -> QProgressBar) -> Display -> Display)
    (v : Z) : M unit :=
  if c_int v then modify_ui (on_bar (Widget.setValue v)) else raise overflowed.

Definition set_error_state : M unit :=
  setText Widget.on_cpu_label "CPU (N/A)" ;;
  setText Widget.on_ram_label "RAM: Error" ;;
  setText Widget.on_disk_label "Disk: Error" ;;
  setText Widget.on_iodelay_label "I/O Delay: Error".

(** The row built for one guest in the loops of [update_stats]. *)
Definition guest_item (g : Guest) : QListWidgetItem :=
  let item_text :=
    "ID: " ++ fmt_int (vmid g) "None" ++ " | " ++ fmt_str (name g)
      ++ " | " ++ fmt_str (status g) in
  let item := Widget.item item_text in
  if is_str (status g) "running" then
    Widget.setForeground "black" (Widget.setBackground "#4CAF50" item)
  else if is_str (status g) "stopped" then
    Widget.setForeground "white" (Widget.setBackground "#F44336" item)
  else item.

Definition vmid_key (g : Guest) : Z := get (vmid g) 0.

(** The poll tick.  Everything after the handle test runs inside the [try]:
    the three requests, and in the host block every [/ (1024**3)], [int(...)]
    and [setValue(...)], each of which can raise. *)
Definition update_stats (env : Env) : M unit :=
  px <- gets proxmox ;;
  match px with
  | None =>
      set_error_state ;;
      modify_ui (Widget.on_vm_list Widget.clear) ;;
      modify_ui (Widget.on_vm_list (Widget.addItem (Widget.item "Disconnected"))) ;;
      modify_ui (Widget.on_container_list Widget.clear) ;;
      modify_ui (Widget.on_container_list
                   (Widget.addItem (Widget.item "Disconnected")))
  | Some _ =>
      try_except
        (st <- request (GET_status (PROXMOX_NODE env)) (node_status_get env) ;;

         let cpu_percent := Num.fmul (Num.fl (get (cpu st) 0%Q)) 100%Q in
         let cpu_info := get (cpuinfo st) {| cores := None; cpus := None |} in
         setText Widget.on_cpu_label
           ("CPU (" ++ fmt_int (cores cpu_info) "?" ++ " cores, "
              ++ fmt_int (cpus cpu_info) "?" ++ " threads)") ;;
         v <- lift (int_float cpu_percent) ;;
         setValue Widget.on_cpu_bar v ;;

         let mem := get (memory st) {| used := None; total := None |} in
         ram_used <- lift (truediv (get (used mem) 0) (1024 ^ 3)) ;;
         ram_total <- lift (truediv (get (total mem) 1) (1024 ^ 3)) ;;
         let ram_percent :=
           if Num.Qpos_bool ram_total
           then Num.fmul (Num.fdiv ram_used ram_total) 100%Q else 0%Q in
         setText Widget.on_ram_label
           ("RAM (" ++ Num.format_1f ram_used ++ "/" ++ Num.format_1f ram_total
              ++ " GiB)") ;;
         v <- lift (int_float ram_percent) ;;
         setValue Widget.on_ram_bar v ;;

         let fs := get (rootfs st) {| used := None; total := None |} in
         disk_used <- lift (truediv (get (used fs) 0) (1024 ^ 3)) ;;
         disk_total <- lift (truediv (get (total fs) 1) (1024 ^ 3)) ;;
         let disk_percent :=
           if Num.Qpos_bool disk_total
           then Num.fmul (Num.fdiv disk_used disk_total) 100%Q else 0%Q in
         setText Widget.on_disk_label
           ("Disk (" ++ Num.format_1f disk_used ++ "/" ++ Num.format_1f disk_total
              ++ " GiB)") ;;
         v <- lift (int_float disk_percent) ;;
         setValue Widget.on_disk_bar v ;;

         let io_delay := Num.fmul (Num.fl (get (wait st) 0%Q)) 100%Q in
         setText Widget.on_iodelay_label "I/O Delay" ;;
         modify_ui (Widget.on_iodelay_bar
                      (Widget.setFormat (Num.format_1f io_delay ++ "%"))) ;;
         v <- lift (int_float io_delay) ;;
         setValue Widget.on_iodelay_bar v ;;

         vms <- request (GET_qemu (PROXMOX_NODE env)) (node_qemu_get env) ;;
         modify_ui (Widget.on_vm_list Widget.clear) ;;
         for_each (sorted vmid_key vms)
           (fun g => modify_ui (Widget.on_vm_list (Widget.addItem (guest_item g)))) ;;

         containers <- request (GET_lxc (PROXMOX_NODE env)) (node_lxc_get env) ;;
         modify_ui (Widget.on_container_list Widget.clear) ;;
         for_each (sorted vmid_key containers)
           (fun g =>
              modify_ui (Widget.on_container_list (Widget.addItem (guest_item g)))))
        (fun e =>
           match e with
           | ResourceException m => logger_error ("Proxmox API error: " ++ m)
           | Exception m =>
               logger_error ("Unexpected error in update_stats: " ++ m)
           end)
  end.

Definition _get_selected_vmid (list_widget : Display -> QListWidget)
    (item_type : string) : M (option Z) :=
  selected <- gets (fun s => Widget.selectedItems (list_widget (ui s))) ;;
  match selected with
  | [] =>
      emit (MessageBox Warning "Selection" ("Select a " ++ item_type ++ " first.")) ;;
      ret None
  | first :: _ =>
      match Text.re_search_ID (text first) with
      | Some group1 => ret (Some (Text.int_str group1))
      | None => ret None
      end
  end.

Definition actions (a : Action) : string :=
  match a with
  | start => "start"
  | stop => "stop"
  | reboot => "reboot"
  | shutdown => "shutdown"
  end.

Definition _perform_action (env : Env) (vmid : option Z) (action_type : Action)
    (resource_type : Resource) : M unit :=
  px <- gets proxmox ;;
  match vmid, px with
  | None, _ => ret tt
  | Some _, None => ret tt
  | Some id, Some _ =>
      try_except
        (request
           (POST_status (PROXMOX_NODE env) resource_type id (actions action_type))
           (guest_status_post env resource_type id action_type) ;;
         emit (SingleShot 2000 slot_update_stats))
        (fun e =>
           match e with
           | ResourceException m =>
               emit (MessageBox Critical "Error" ("Action failed: " ++ m))
           | Exception m =>
               emit (MessageBox Critical "Error" ("Unexpected error: " ++ m))
           end)
  end.

Definition start_vm (env : Env) : M unit :=
  id <- _get_selected_vmid vm_list "VM" ;; _perform_action env id start vm.
Definition stop_vm (env : Env) : M unit :=
  id <- _get_selected_vmid vm_list "VM" ;; _perform_action env id stop vm.
Definition reboot_vm (env : Env) : M unit :=
  id <- _get_selected_vmid vm_list "VM" ;; _perform_action env id reboot vm.
Definition shutdown_vm (env : Env) : M unit :=
  id <- _get_selected_vmid vm_list "VM" ;; _perform_action env id shutdown vm.

Definition start_container (env : Env) : M unit :=
  id <- _get_selected_vmid container_list "CT" ;;
  _perform_action env id start container.
Definition stop_container (env : Env) : M unit :=
  id <- _get_selected_vmid container_list "CT" ;;
  _perform_action env id stop container.
Definition reboot_container (env : Env) : M unit :=
  id <- _get_selected_vmid container_list "CT" ;;
  _perform_action env id reboot container.
Definition shutdown_container (env : Env) : M unit :=
  id <- _get_selected_vmid container_list "CT" ;;
  _perform_action env id shutdown container.

Definition UPDATE_INTERVAL_MS : Z := 10000.

(** [bool(proxmox)]: only [None] is false. *)
Definition bool_of {A} (o : option A) : bool :=
  match o with Some _ => true | None => false end.

(** [MonitorApp()]: [init_ui] builds the widgets ([init_pyve_tab] picks the
    first texts from the global handle), [setup_update_timer] starts the
    polling. *)
Definition init_pyve_tab (connected : bool) : Display :=
  let initial_state := if connected then "Connecting..." else "Error" in
  let initial_cores_threads := if connected then "Fetching..." else "N/A" in
  let bar := {| value := 0; format := "%p%" |} in
  {| pyve_cpu_label := "CPU (" ++ initial_cores_threads ++ ")";
     pyve_cpu_bar := bar;
     pyve_ram_label := "RAM: " ++ initial_state;
     pyve_ram_bar := bar;
     pyve_disk_label := "Disk: " ++ initial_state;
     pyve_disk_bar := bar;
     pyve_iodelay_label := "I/O Delay: " ++ initial_state;
     pyve_iodelay_bar := bar;
     vm_list := {| items := []; selectedRow := None |};
     container_list := {| items := []; selectedRow := None |} |}.

Definition setup_update_timer : M unit :=
  emit (TimerStart UPDATE_INTERVAL_MS slot_update_stats) ;;
  emit (SingleShot 150 slot_update_stats).

Definition MonitorApp : M unit :=
  px <- gets proxmox ;;
  modify_ui (fun _ => init_pyve_tab (bool_of px)) ;;
  (if bool_of px then ret tt else set_error_state) ;;
  setup_update_timer.

(** The [__main__] block up to the event loop: [Running] is [app.exec_()],
    [Exited c] is [sys.exit(c)]; [retry_yes] is the operator's answer to the
    question box. *)
Inductive Launch := Running | Exited (code : Z).

Definition newline : string := String (ascii_of_nat 10) EmptyString.

Definition main (env env_retry : Env) (retry_yes : bool) : M Launch :=
  ok <- initialize_proxmox_connection env ;;
  if ok then MonitorApp ;; ret Running
  else
    details <- gets connection_error_details ;;
    emit (MessageBox Question "Connection Error"
            (fmt_str details ++ newline ++ "Retry connection?")) ;;
    if retry_yes then
      ok' <- initialize_proxmox_connection env_retry ;;
      if ok' then MonitorApp ;; ret Running else ret (Exited 1)
    else ret (Exited 1).

(** ** The event loop *)

Inductive Button :=
| vm_start_button | vm_stop_button | vm_restart_button | vm_shutdown_button
| container_start_button | container_stop_button
| container_restart_button | container_shutdown_button.

(** The [clicked.connect] wiring of [init_vm_tab] and [init_container_tab]. *)
Definition clicked (env : Env) (b : Button) : M unit :=
  match b with
  | vm_start_button => start_vm env
  | vm_stop_button => stop_vm env
  | vm_restart_button => reboot_vm env
  | vm_shutdown_button => shutdown_vm env
  | container_start_button => start_container env
  | container_stop_button => stop_container env
  | container_restart_button => reboot_container env
  | container_shutdown_button => shutdown_container env
  end.

Definition button_list (b : Button) : Display -> QListWidget :=
  match b with
  | vm_start_button | vm_stop_button | vm_restart_button
  | vm_shutdown_button => vm_list
  | _ => container_list
  end.

Definition button_action (b : Button) : Action :=
  match b with
  | vm_start_button | container_start_button => start
  | vm_stop_button | container_stop_button => stop
  | vm_restart_button | container_restart_button => reboot
  | vm_shutdown_button | container_shutdown_button => shutdown
  end.

Definition button_resource (b : Button) : Resource :=
  match b with
  | vm_start_button | vm_stop_button | vm_restart_button
  | vm_shutdown_button => vm
  | _ => container
  end.

(** The operator picks a row of a list ([None]: clears the selection). *)
Definition select_row (row : option nat) (w : QListWidget) : QListWidget :=
  match row with
  | None => {| items := items w; selectedRow := None |}
  | Some i =>
      if (i <? List.length (items w))%nat
      then {| items := items w; selectedRow := Some i |}
      else w
  end.

Definition on_list (r : Resource) :
    (QListWidget -> QListWidget) -> Display -> Display :=
  match r with
  | vm => Widget.on_vm_list
  | container => Widget.on_container_list
  end.

(** What the event loop delivers once the window is up: a timer tick (the
    periodic timer or a one-shot), a button click, a selection change.  The
    server's answers during the callback come with the event. *)
Inductive UIEvent :=
| Timeout (env : Env)
| Clicked (env : Env) (b : Button)
| Selected (r : Resource) (row : option nat).

Definition dispatch (ev : UIEvent) : M unit :=
  match ev with
  | Timeout env => update_stats env
  | Clicked env b => clicked env b
  | Selected r row => modify_ui (on_list r (select_row row))
  end.

Fixpoint exec (evs : list UIEvent) (s : App) : App :=
  match evs with
  | [] => s
  | ev :: evs' => exec evs' (snd (dispatch ev s))
  end.

(** ** Observations used in the statements *)

Definition is_api (e : Event) : bool :=
  match e with Api _ => true | _ => false end.

Definition is_box (e : Event) : bool :=
  match e with MessageBox _ _ _ => true | _ => false end.

Definition is_sleep (e : Event) : bool :=
  match e with Sleep _ => true | _ => false end.

Definition is_new_session (e : Event) : bool :=
  match e with Api NewSession => true | _ => false end.

Definition is_version_query (e : Event) : bool :=
  match e with Api GET_version => true | _ => false end.

(** The snapshot of the data model, and the dict the API hands over for it. *)
Record HostStatus := {
  cpuFraction : Q;
  cpuCores : option Z;
  cpuThreads : option Z;
  memoryUsedBytes : Z;
  memoryTotalBytes : Z;
  diskUsedBytes : Z;
  diskTotalBytes : Z;
  ioWaitFraction : Q
}.

Definition status_of (h : HostStatus) : Status :=
  {| cpu := Some (cpuFraction h);
     cpuinfo := Some {| cores := cpuCores h; cpus := cpuThreads h |};
     memory := Some {| used := Some (memoryUsedBytes h);
                       total := Some (memoryTotalBytes h) |};
     rootfs := Some {| used := Some (diskUsedBytes h);
                       total := Some (diskTotalBytes h) |};
     wait := Some (ioWaitFraction h) |}.


Inductive Gauge := CPU | RAM | Disk | IOWait.

(** The fractional field behind each gauge. *)
Definition fraction (g : Gauge) (h : HostStatus) : Q :=
  match g with
  | CPU => cpuFraction h
  | RAM => inject_Z (memoryUsedBytes h) / inject_Z (memoryTotalBytes h)
  | Disk => inject_Z (diskUsedBytes h) / inject_Z (diskTotalBytes h)
  | IOWait => ioWaitFraction h
  end.



Definition gauge_bar (g : Gauge) (d : Display) : QProgressBar :=
  match g with
  | CPU => pyve_cpu_bar d
  | RAM => pyve_ram_bar d
  | Disk => pyve_disk_bar d
  | IOWait => pyve_iodelay_bar d
  end.

Definition gauge_label (g : Gauge) (d : Display) : string :=
  match g with
  | CPU => pyve_cpu_label d
  | RAM => pyve_ram_label d
  | Disk => pyve_disk_label d
  | IOWait => pyve_iodelay_label d
  end.

Definition error_text (g : Gauge) : string :=
  match g with
  | CPU => "CPU (N/A)"
  | RAM => "RAM: Error"
  | Disk => "Disk: Error"
  | IOWait => "I/O Delay: Error"
  end.

(** The widgets as [init_ui] builds them, without and with a handle. *)
Definition blank : App :=
  {| proxmox := None; connection_error_details := None;
     ui := init_pyve_tab false; trace := [] |}.

Definition online : App :=
  {| proxmox := Some {| session := 0 |}; connection_error_details := None;
     ui := init_pyve_tab true; trace := [] |}.

(** The effects a callback added when it took [s] to [s']. *)
Definition new_events (s s' : App) : list Event :=
  skipn (List.length (trace s)) (trace s').

Definition is_warning (e : Event) : bool :=
  match e with MessageBox Warning _ _ => true | _ => false end.

(** The [item_type] each handler passes to [_get_selected_vmid]. *)
Definition button_item_type (b : Button) : string :=
  match button_resource b with vm => "VM" | container => "CT" end.

(** Attempt [i] of the startup sequence succeeds when the session opens and
    the version query on it returns. *)
Definition session_opened (env : Env) (i : nat) : bool :=
  match api_connect env i with Returned _ => true | Raised _ => false end.

Definition attempt_ok (env : Env) (i : nat) : bool :=
  session_opened env i
  && match version_get env i with Returned _ => true | Raised _ => false end.

(** How many attempts the sequence makes: up to the first that succeeds. *)
Definition attempts_made (env : Env) : nat :=
  match find (attempt_ok env) (seq 0 max_retries) with
  | Some k => S k
  | None => max_retries
  end.

Definition is_attempt_or_sleep (e : Event) : bool :=
  is_new_session e || is_sleep e.

(** A poll error's log line. *)
Definition poll_error_line (e : exn) : string :=
  match e with
  | ResourceException m => "Proxmox API error: " ++ m
  | Exception m => "Unexpected error in update_stats: " ++ m
  end.


(** Sample data. *)
Definition web : Guest :=
  {| vmid := Some 101; name := Some "web"; status := Some "running" |}.

Definition db : Guest :=
  {| vmid := Some 55; name := Some "db"; status := Some "stopped" |}.

Definition with_vm_rows (rows : list QListWidgetItem) (row : option nat)
    (s : App) : App :=
  {| proxmox := proxmox s;
     connection_error_details := connection_error_details s;
     ui := Widget.on_vm_list (fun _ => {| items := rows; selectedRow := row |})
             (ui s);
     trace := trace s |}.

(** The state [s] with the RAM bar at [v]. *)
Definition with_ram_bar (v : Z) (s : App) : App :=
  {| proxmox := proxmox s;
     connection_error_details := connection_error_details s;
     ui := Widget.on_ram_bar (fun b => {| value := v; format := format b |})
             (ui s);
     trace := trace s |}.

Definition refused : exn := Exception "connection refused".

(** A server that answers every request. *)
Definition server (st : Status) (vms cts : list Guest) : Env :=
  {| PROXMOX_HOST := "10.0.0.2"; PROXMOX_NODE := "pve"; VERIFY_SSL := false;
     api_connect := fun i => Returned {| session := i |};
     version_get := fun _ => Returned tt;
     node_status_get := Returned st;
     node_qemu_get := Returned vms;
     node_lxc_get := Returned cts;
     guest_status_post := fun _ _ _ => Returned tt |}.

(** A server that is down: every request raises. *)
Definition down : Env :=
  {| PROXMOX_HOST := "10.0.0.2"; PROXMOX_NODE := "pve"; VERIFY_SSL := false;
     api_connect := fun _ => Raised refused;
     version_get := fun _ => Raised refused;
     node_status_get := Raised refused;
     node_qemu_get := Raised refused;
     node_lxc_get := Raised refused;
     guest_status_post := fun _ _ _ => Raised refused |}.

(** A server whose first version query fails, and one whose VM listing
    fails. *)
Definition flaky : Env :=
  {| PROXMOX_HOST := "10.0.0.2"; PROXMOX_NODE := "pve"; VERIFY_SSL := false;
     api_connect := fun i => Returned {| session := i |};
     version_get := fun i => if (i =? 0)%nat then Raised refused else Returned tt;
     node_status_get := Raised refused;
     node_qemu_get := Raised refused;
     node_lxc_get := Raised refused;
     guest_status_post := fun _ _ _ => Raised refused |}.

(** A server that opens sessions but fails every version query. *)
Definition unvalidated : Env :=
  {| PROXMOX_HOST := "10.0.0.2"; PROXMOX_NODE := "pve"; VERIFY_SSL := false;
     api_connect := fun i => Returned {| session := i |};
     version_get := fun _ => Raised (ResourceException "501 Not Implemented");
     node_status_get := Raised refused;
     node_qemu_get := Raised refused;
     node_lxc_get := Raised refused;
     guest_status_post := fun _ _ _ => Raised refused |}.

Definition qemu_down (st : Status) : Env :=
  {| PROXMOX_HOST := "10.0.0.2"; PROXMOX_NODE := "pve"; VERIFY_SSL := false;
     api_connect := fun i => Returned {| session := i |};
     version_get := fun _ => Returned tt;
     node_status_get := Returned st;
     node_qemu_get := Raised (ResourceException "500 Internal Server Error");
     node_lxc_get := Returned [];
     guest_status_post := fun _ _ _ => Returned tt |}.

Definition load : HostStatus :=
  {| cpuFraction := 11 # 16; cpuCores := Some 4; cpuThreads := Some 8;
     memoryUsedBytes := 3 * 1024 ^ 3; memoryTotalBytes := 8 * 1024 ^ 3;
     diskUsedBytes := 10 * 1024 ^ 3; diskTotalBytes := 40 * 1024 ^ 3;
     ioWaitFraction := 1 # 32 |}.

(** [keeps obs m]: running [m] never changes the observation [obs], whether
    [m] returns or raises. *)
Definition keeps {X A} (obs : App -> X) (m : M A) : Prop :=
  forall s, obs (snd (m s)) = obs s.

(** [returns m]: [m] returns, it never lets an exception out. *)
Definition returns {A} (m : M A) : Prop :=
  forall s, exists a, fst (m s) = Returned a.

(** ** ScrollableTabBar *)

Module TabBar.

Inductive MouseButton := LeftButton | RightButton | MiddleButton.

Record QPoint := { x : Z; y : Z }.

Record QMouseEvent := { button : MouseButton; pos : QPoint }.

(** The two attributes the class adds, and what it reads from the base
    class: [tabRect(i).width()] for each tab and [self.width()]. *)
Record ScrollableTabBar := {
  _drag_start_pos : option QPoint;
  _scroll_offset : Z;
  tab_widths : list Z;
  width : Z
}.

Definition new (widths : list Z) (w : Z) : ScrollableTabBar :=
  {| _drag_start_pos := None; _scroll_offset := 0;
     tab_widths := widths; width := w |}.

(** [sum(...)] over the tabs. *)
Definition sum (l : list Z) : Z := fold_right Z.add 0 l.

Definition update_scroll_position (t : ScrollableTabBar) : ScrollableTabBar :=
  let total_width := sum (tab_widths t) in
  let visible_width := width t in
  if total_width <=? visible_width then
    {| _drag_start_pos := _drag_start_pos t; _scroll_offset := 0;
       tab_widths := tab_widths t; width := width t |}
  else
    let max_offset := total_width - visible_width in
    {| _drag_start_pos := _drag_start_pos t;
       _scroll_offset := Z.max 0 (Z.min (_scroll_offset t) max_offset);
       tab_widths := tab_widths t; width := width t |}.

Definition mousePressEvent (event : QMouseEvent) (t : ScrollableTabBar) :
    ScrollableTabBar :=
  match button event with
  | LeftButton =>
      {| _drag_start_pos := Some (pos event);
         _scroll_offset := _scroll_offset t;
         tab_widths := tab_widths t; width := width t |}
  | _ => t
  end.

Definition mouseMoveEvent (event : QMouseEvent) (t : ScrollableTabBar) :
    ScrollableTabBar :=
  match _drag_start_pos t with
  | Some start_pos =>
      let delta := x (pos event) - x start_pos in
      update_scroll_position
        {| _drag_start_pos := Some (pos event);
           _scroll_offset := _scroll_offset t - delta;
           tab_widths := tab_widths t; width := width t |}
  | None => t
  end.

Definition mouseReleaseEvent (event : QMouseEvent) (t : ScrollableTabBar) :
    ScrollableTabBar :=
  {| _drag_start_pos := None; _scroll_offset := _scroll_offset t;
     tab_widths := tab_widths t; width := width t |}.

Inductive Mouse :=
| Press (event : QMouseEvent)
| Move (event : QMouseEvent)
| Release (event : QMouseEvent).

Definition deliver (m : Mouse) : ScrollableTabBar -> ScrollableTabBar :=
  match m with
  | Press event => mousePressEvent event
  | Move event => mouseMoveEvent event
  | Release event => mouseReleaseEvent event
  end.

Fixpoint run (ms : list Mouse) (t : ScrollableTabBar) : ScrollableTabBar :=
  match ms with
  | [] => t
  | m :: ms' => run ms' (deliver m t)
  end.

(** How far the bar can scroll. *)
Definition max_scroll (t : ScrollableTabBar) : Z :=
  Z.max 0 (sum (tab_widths t) - width t).

(** A press of the left button: the only event that starts a drag. *)
Definition starts_drag (m : Mouse) : bool :=
  match m with
  | Press event =>
      match button event with LeftButton => true | _ => false end
  | _ => false
  end.

Definition at_x (px : Z) : QMouseEvent :=
  {| button := LeftButton; pos := {| x := px; y := 0 |} |}.

End TabBar.

(** ** Button state *)

(** [isEnabled()] of the four action buttons of one tab. *)
Record ActionButtons := {
  start_button : bool;
  stop_button : bool;
  restart_button : bool;
  shutdown_button : bool
}.

Definition update_vm_button_state (d : Display) : ActionButtons :=
  let enabled :=
    match Widget.selectedItems (vm_list d) with [] => false | _ => true end in
  {| start_button := enabled; stop_button := enabled;
     restart_button := enabled; shutdown_button := enabled |}.

Definition update_container_button_state (d : Display) : ActionButtons :=
  let enabled :=
    match Widget.selectedItems (container_list d) with
    | [] => false
    | _ => true
    end in
  {| start_button := enabled; stop_button := enabled;
     restart_button := enabled; shutdown_button := enabled |}.

(** The flag of one button after the state update of its tab. *)
Definition button_enabled (b : Button) (d : Display) : bool :=
  let tab :=
    match button_resource b with
    | vm => update_vm_button_state d
    | container => update_container_button_state d
    end in
  match button_action b with
  | start => start_button tab
  | stop => stop_button tab
  | reboot => restart_button tab
  | shutdown => shutdown_button tab
  end.

(** ** More observations *)

Definition any_attempt_ok (env : Env) : bool :=
  existsb (attempt_ok env) (seq 0 max_retries).

(** The exception that ends attempt [i], if one does. *)
Definition attempt_error (env : Env) (i : nat) : option exn :=
  match api_connect env i with
  | Raised e => Some e
  | Returned _ =>
      match version_get env i with
      | Raised e => Some e
      | Returned _ => None
      end
  end.

(** The handle of the latest of the attempts in [range] that opened a
    session, [before] when none did. *)
Definition latest_session (env : Env) (range : list nat)
    (before : option ProxmoxAPI) : option ProxmoxAPI :=
  fold_left
    (fun acc i =>
       match api_connect env i with
       | Returned h => Some h
       | Raised _ => acc
       end)
    range before.

Definition is_question (e : Event) : bool :=
  match e with MessageBox Question _ _ => true | _ => false end.

Definition list_of (r : Resource) : Display -> QListWidget :=
  match r with vm => vm_list | container => container_list end.

(** The request that fetches the listing of kind [r], and its answer. *)
Definition list_request (env : Env) (r : Resource) : Request :=
  match r with
  | vm => GET_qemu (PROXMOX_NODE env)
  | container => GET_lxc (PROXMOX_NODE env)
  end.

Definition list_answer (env : Env) (r : Resource) : outcome (list Guest) :=
  match r with
  | vm => node_qemu_get env
  | container => node_lxc_get env
  end.

(** A server like [env] whose listings are [vms] and [cts]. *)
Definition with_listings (vms cts : list Guest) (env : Env) : Env :=
  {| PROXMOX_HOST := PROXMOX_HOST env; PROXMOX_NODE := PROXMOX_NODE env;
     VERIFY_SSL := VERIFY_SSL env;
     api_connect := api_connect env; version_get := version_get env;
     node_status_get := node_status_get env;
     node_qemu_get := Returned vms;
     node_lxc_get := Returned cts;
     guest_status_post := guest_status_post env |}.

(** A state without a handle whose window is that of [s]. *)
Definition disconnected (s : App) : App :=
  {| proxmox := None;
     connection_error_details := connection_error_details s;
     ui := ui s;
     trace := trace s |}.

(** ** A tick with a handle, as a function of the answers

    The [try] block of [update_stats] reads nothing of the window: what it
    writes, where it stops and what it sends depend on the answers alone.
    [Writes] is a stretch of the block: the exception that stops it, if one
    does, and the widget writes made up to there. *)
Definition Writes : Type := option exn * (Display -> Display).

Definition wrote (F : Display -> Display) : Writes := (None, F).

Definition stopped (e : exn) : Writes := (Some e, fun d => d).

Definition and_then (a b : Writes) : Writes :=
  match fst a with
  | Some _ => a
  | None => (fst b, fun d => snd b (snd a d))
  end.

(** [bar.setValue(int(x))]. *)
Definition bar_writes
    (on_bar : (QProgressBar -> QProgressBar) -> Display -> Display) (x : Q) :
    Writes :=
  match int_float x with
  | Raised e => stopped e
  | Returned v =>
      if c_int v then wrote (on_bar (Widget.setValue v)) else stopped overflowed
  end.

(** The RAM and the Disk lines of the host block. *)
Definition usage_writes
    (on_label : (string -> string) -> Display -> Display)
    (on_bar : (QProgressBar -> QProgressBar) -> Display -> Display)
    (title : string) (u : Usage) : Writes :=
  match truediv (get (used u) 0) (1024 ^ 3) with
  | Raised e => stopped e
  | Returned x_used =>
      match truediv (get (total u) 1) (1024 ^ 3) with
      | Raised e => stopped e
      | Returned x_total =>
          and_then
            (wrote (on_label (fun _ =>
               title ++ Num.format_1f x_used ++ "/" ++ Num.format_1f x_total
                 ++ " GiB)")))
            (bar_writes on_bar
               (if Num.Qpos_bool x_total
                then Num.fmul (Num.fdiv x_used x_total) 100%Q else 0%Q))
      end
  end.

Definition host_block (st : Status) : Writes :=
  let cpu_info := get (cpuinfo st) {| cores := None; cpus := None |} in
  let io_delay := Num.fmul (Num.fl (get (wait st) 0%Q)) 100%Q in
  and_then
    (wrote (Widget.on_cpu_label (fun _ =>
       "CPU (" ++ fmt_int (cores cpu_info) "?" ++ " cores, "
         ++ fmt_int (cpus cpu_info) "?" ++ " threads)")))
    (and_then
       (bar_writes Widget.on_cpu_bar (Num.fmul (Num.fl (get (cpu st) 0%Q)) 100%Q))
       (and_then
          (usage_writes Widget.on_ram_label Widget.on_ram_bar "RAM ("
             (get (memory st) {| used := None; total := None |}))
          (and_then
             (usage_writes Widget.on_disk_label Widget.on_disk_bar "Disk ("
                (get (rootfs st) {| used := None; total := None |}))
             (and_then
                (wrote (Widget.on_iodelay_label (fun _ => "I/O Delay")))
                (and_then
                   (wrote (Widget.on_iodelay_bar
                             (Widget.setFormat (Num.format_1f io_delay ++ "%"))))
                   (bar_writes Widget.on_iodelay_bar io_delay)))))).

(** A list widget after [clear()] and one [addItem] per guest, by key. *)
Definition guest_rows (gs : list Guest) (_ : QListWidget) : QListWidget :=
  {| items := map guest_item (sorted vmid_key gs); selectedRow := None |}.

(** The requests of the [try] block, in order, and its writes. *)
Definition poll (env : Env) : list Request * Writes :=
  let node := PROXMOX_NODE env in
  match node_status_get env with
  | Raised e => ([GET_status node], stopped e)
  | Returned st =>
      match fst (host_block st) with
      | Some _ => ([GET_status node], host_block st)
      | None =>
          match node_qemu_get env with
          | Raised e =>
              ([GET_status node; GET_qemu node],
               and_then (host_block st) (stopped e))
          | Returned vms =>
              let shown :=
                and_then (host_block st)
                  (wrote (Widget.on_vm_list (guest_rows vms))) in
              match node_lxc_get env with
              | Raised e =>
                  ([GET_status node; GET_qemu node; GET_lxc node],
                   and_then shown (stopped e))
              | Returned cts =>
                  ([GET_status node; GET_qemu node; GET_lxc node],
                   and_then shown
                     (wrote (Widget.on_container_list (guest_rows cts))))
              end
          end
      end
  end.

(** The state a tick with a handle leaves. *)
Definition polled (env : Env) (s : App) : App :=
  {| proxmox := proxmox s;
     connection_error_details := connection_error_details s;
     ui := snd (snd (poll env)) (ui s);
     trace :=
       trace s ++ map Api (fst (poll env))
         ++ match fst (snd (poll env)) with
            | Some e => [Logged ERROR (poll_error_line e)]
            | None => []
            end |}.

(** ** Widget-wise rewrites

    Every write of a tick overwrites one widget, or one property of a bar,
    with a value that does not depend on the window. *)
Definition fields (a1 a2 a3 a4 : string -> string)
    (b1 b2 b3 b4 : QProgressBar -> QProgressBar)
    (l1 l2 : QListWidget -> QListWidget) (d : Display) : Display :=
  {| pyve_cpu_label := a1 (pyve_cpu_label d);
     pyve_cpu_bar := b1 (pyve_cpu_bar d);
     pyve_ram_label := a2 (pyve_ram_label d);
     pyve_ram_bar := b2 (pyve_ram_bar d);
     pyve_disk_label := a3 (pyve_disk_label d);
     pyve_disk_bar := b3 (pyve_disk_bar d);
     pyve_iodelay_label := a4 (pyve_iodelay_label d);
     pyve_iodelay_bar := b4 (pyve_iodelay_bar d);
     vm_list := l1 (vm_list d);
     container_list := l2 (container_list d) |}.

Definition keep {A} (x : A) : A := x.

(** A bar with its value, its format, both or neither replaced. *)
Definition bar_patch (v : option Z) (f : option string) (b : QProgressBar) :
    QProgressBar :=
  {| value := get v (value b); format := get f (format b) |}.

Definition sets_or_keeps {A} (f : A -> A) : Prop :=
  (forall x, f x = x) \/ (exists c, forall x, f x = c).

Definition patches (f : QProgressBar -> QProgressBar) : Prop :=
  exists v fmt, forall b, f b = bar_patch v fmt b.

Definition tidy (F : Display -> Display) : Prop :=
  exists a1 a2 a3 a4 b1 b2 b3 b4 l1 l2,
    (forall d, F d = fields a1 a2 a3 a4 b1 b2 b3 b4 l1 l2 d)
    /\ (sets_or_keeps a1 /\ sets_or_keeps a2 /\ sets_or_keeps a3
        /\ sets_or_keeps a4)
    /\ (patches b1 /\ patches b2 /\ patches b3 /\ patches b4)
    /\ (sets_or_keeps l1 /\ sets_or_keeps l2).

(** [F] leaves the two guest lists alone. *)
Definition host_only (F : Display -> Display) : Prop :=
  forall d, vm_list (F d) = vm_list d /\ container_list (F d) = container_list d.

(** The writes of a tick without a handle. *)
Definition offline_writes (d : Display) : Display :=
  Widget.on_container_list (Widget.addItem (Widget.item "Disconnected"))
    (Widget.on_container_list Widget.clear
       (Widget.on_vm_list (Widget.addItem (Widget.item "Disconnected"))
          (Widget.on_vm_list Widget.clear
             (Widget.on_iodelay_label (fun _ => "I/O Delay: Error")
                (Widget.on_disk_label (fun _ => "Disk: Error")
                   (Widget.on_ram_label (fun _ => "RAM: Error")
                      (Widget.on_cpu_label (fun _ => "CPU (N/A)") d))))))).

(** * Properties *)

Example str_int_101 : Text.str_int 101 = "101".
Proof. reflexivity. Qed.

Example str_int_0 : Text.str_int 0 = "0".
Proof. reflexivity. Qed.

Example str_int_neg : Text.str_int (-42) = "-42".
Proof. reflexivity. Qed.

Example search_row :
  Text.re_search_ID "ID: 101 | web | running" = Some "101".
Proof. reflexivity. Qed.

Example search_placeholder : Text.re_search_ID "Disconnected" = None.
Proof. reflexivity. Qed.

Example search_skips_to_first_match :
  Text.re_search_ID "GRID:x ID:7a" = Some "7".
Proof. reflexivity. Qed.

(** ** Decimal rendering and parsing *)

Section Decimal.

Import Text.

Lemma rev_digits_value (fuel : nat) :
  forall n, 0 <= n < 2 ^ Z.of_nat fuel -> value_of (Text.rev_digits fuel n) = n.
Proof.
  induction fuel as [|fuel IH]; intros n Hn.
  - simpl in *. lia.
  - cbn [Text.rev_digits]. destruct (Z.ltb_spec n 10) as [Hlt|Hge].
    + unfold value_of. simpl. lia.
    + unfold value_of in *. cbn [fold_right]. rewrite IH.
      * pose proof (Z.div_mod n 10). lia.
      * rewrite Nat2Z.inj_succ, Z.pow_succ_r in Hn by lia.
        split; [apply Z.div_pos; lia|].
        apply Z.div_lt_upper_bound; lia.
Qed.

Lemma rev_digits_decimal (fuel : nat) :
  forall n, 0 <= n -> Forall decimal (Text.rev_digits fuel n).
Proof.
  induction fuel as [|fuel IH]; intros n Hn; cbn [Text.rev_digits].
  - constructor.
  - destruct (Z.ltb_spec n 10).
    + repeat constructor; lia.
    + constructor.
      * pose proof (Z.mod_pos_bound n 10). unfold decimal. lia.
      * apply IH. apply Z.div_pos; lia.
Qed.

Lemma rev_digits_nonempty (fuel : nat) (n : Z) :
  Text.rev_digits (S fuel) n <> [].
Proof. cbn [Text.rev_digits]. destruct (n <? 10); discriminate. Qed.

Lemma digits_decimal (n : Z) : 0 <= n -> Forall decimal (Text.digits n).
Proof.
  intros Hn. unfold Text.digits. apply Forall_rev.
  now apply rev_digits_decimal.
Qed.

Lemma digits_nonempty (n : Z) : Text.digits n <> [].
Proof.
  unfold Text.digits. intros H.
  apply (f_equal (@rev Z)) in H. rewrite rev_involutive in H.
  now apply rev_digits_nonempty in H.
Qed.

Lemma log2_fuel (n : Z) : 0 <= n -> n < 2 ^ Z.of_nat (S (Z.to_nat (Z.log2 n))).
Proof.
  intros Hn. rewrite Nat2Z.inj_succ, Z2Nat.id by apply Z.log2_nonneg.
  destruct (Z.eq_dec n 0) as [->|Hnz].
  - reflexivity.
  - apply Z.log2_spec. lia.
Qed.

Lemma digit_val_char (d : Z) : decimal d -> Text.digit_val (Text.digit_char d) = d.
Proof.
  intros [H0 H9]. unfold Text.digit_val, Text.digit_char.
  rewrite nat_ascii_embedding by lia. lia.
Qed.

Lemma is_digit_char (d : Z) : decimal d -> Text.is_digit (Text.digit_char d) = true.
Proof.
  intros [H0 H9]. unfold Text.is_digit, Text.digit_char.
  rewrite nat_ascii_embedding by lia.
  apply andb_true_intro; split; apply Nat.leb_le; lia.
Qed.

Lemma is_space_digit_char (d : Z) :
  decimal d -> Text.is_space (Text.digit_char d) = false.
Proof.
  intros [H0 H9]. unfold Text.is_space, Text.digit_char.
  rewrite nat_ascii_embedding by lia.
  repeat match goal with
         | |- context [(?a <=? ?b)%nat] => destruct (Nat.leb_spec a b)
         | |- context [(?a =? ?b)%nat] => destruct (Nat.eqb_spec a b)
         end; simpl; try reflexivity; lia.
Qed.

Lemma int_acc_digits (ds : list Z) :
  Forall decimal ds ->
  forall acc,
    Text.int_acc acc (Text.string_of_chars (map Text.digit_char ds))
    = fold_left (fun a d => 10 * a + d) ds acc.
Proof.
  induction 1 as [|d ds Hd _ IH]; intros acc; simpl.
  - reflexivity.
  - rewrite digit_val_char by assumption. apply IH.
Qed.

Lemma fold_left_value (l : list Z) :
  fold_left (fun a d => 10 * a + d) (rev l) 0 = value_of l.
Proof.
  unfold value_of. induction l as [|d l IH]; cbn [rev fold_right].
  - reflexivity.
  - rewrite fold_left_app. cbn [fold_left]. rewrite IH. lia.
Qed.

(** [int(str(n)) == n] for a nonnegative [n]. *)
Lemma int_str_digits (n : Z) :
  0 <= n ->
  Text.int_str (Text.string_of_chars (map Text.digit_char (Text.digits n))) = n.
Proof.
  intros Hn. unfold Text.int_str.
  rewrite int_acc_digits by now apply digits_decimal.
  unfold Text.digits. rewrite fold_left_value.
  apply rev_digits_value. split; [assumption|now apply log2_fuel].
Qed.

Lemma span_digits (ds : list Z) (c : ascii) (rest : string) :
  Forall decimal ds -> Text.is_digit c = false ->
  Text.span Text.is_digit
    (Text.string_of_chars (map Text.digit_char ds) ++ String c rest)
  = (Text.string_of_chars (map Text.digit_char ds), String c rest).
Proof.
  intros Hds Hc. induction Hds as [|d ds Hd _ IH].
  - cbn [map string_of_chars fold_right String.append span]. now rewrite Hc.
  - change (string_of_chars (map digit_char (d :: ds)))
      with (String (digit_char d) (string_of_chars (map digit_char ds))).
    cbn [String.append span].
    rewrite is_digit_char by assumption. now rewrite IH.
Qed.

Lemma str_int_nonneg (n : Z) :
  0 <= n -> str_int n = string_of_chars (map digit_char (digits n)).
Proof.
  intros Hn. unfold str_int. destruct (Z.ltb_spec n 0); [lia|reflexivity].
Qed.

Lemma int_str_str_int (n : Z) : 0 <= n -> int_str (str_int n) = n.
Proof. intros Hn. rewrite str_int_nonneg by assumption. now apply int_str_digits. Qed.

Lemma span_space_digits (ds : list Z) (tail : string) :
  Forall decimal ds -> ds <> [] ->
  span is_space (string_of_chars (map digit_char ds) ++ tail)
  = (EmptyString, string_of_chars (map digit_char ds) ++ tail).
Proof.
  intros Hds Hne. destruct Hds as [|d ds Hd Hds]; [congruence|].
  change (string_of_chars (map digit_char (d :: ds)))
    with (String (digit_char d) (string_of_chars (map digit_char ds))).
  cbn [String.append span]. now rewrite is_space_digit_char.
Qed.

Lemma string_of_chars_nonempty (ds : list Z) :
  ds <> [] -> string_of_chars (map digit_char ds) <> EmptyString.
Proof. destruct ds; [congruence|discriminate]. Qed.

(** The pattern matches at the very start of a rendered row and group 1 is
    the rendered id. *)
Lemma match_ID_here_row (n : Z) (tail : string) :
  0 <= n ->
  match_ID_here ("ID: " ++ str_int n ++ String " " tail) = Some (str_int n).
Proof.
  intros Hn. rewrite str_int_nonneg by assumption.
  pose proof (digits_decimal n Hn) as Hds.
  pose proof (digits_nonempty n) as Hne.
  unfold match_ID_here.
  change (strip_prefix "ID:" ("ID: " ++ ?x)) with (Some (String " " x)).
  cbn iota beta.
  change (span is_space (String " " ?x))
    with (let (a, b) := span is_space x in (String " " a, b)).
  rewrite span_space_digits by assumption.
  rewrite span_digits by (assumption || reflexivity).
  pose proof (string_of_chars_nonempty _ Hne).
  destruct (string_of_chars (map digit_char (digits n))); congruence.
Qed.

Lemma re_search_ID_row (n : Z) (tail : string) :
  0 <= n ->
  re_search_ID ("ID: " ++ str_int n ++ String " " tail) = Some (str_int n).
Proof.
  intros Hn.
  pose proof (match_ID_here_row n tail Hn) as H.
  remember ("ID: " ++ str_int n ++ String " " tail) as row.
  destruct row; cbn [re_search_ID]; now rewrite H.
Qed.

End Decimal.

Arguments Text.str_int : simpl never.
Arguments Text.int_str : simpl never.
Arguments Text.re_search_ID : simpl never.
Arguments Num.py_int : simpl never.
Arguments Num.py_round : simpl never.
Arguments Num.format_1f : simpl never.
Arguments Num.Qpos_bool : simpl never.
Arguments Num.pow2 : simpl never.
Arguments Num.fl : simpl never.
Arguments Num.fmul : simpl never.
Arguments Num.fdiv : simpl never.
Arguments Num.is_inf : simpl never.
Arguments truediv : simpl never.
Arguments int_float : simpl never.
Arguments c_int : simpl never.
Arguments String.append : simpl never.

(** ** Rows *)

Lemma text_guest_item (g : Guest) :
  text (guest_item g)
  = "ID: " ++ fmt_int (vmid g) "None" ++ " | " ++ fmt_str (name g)
      ++ " | " ++ fmt_str (status g).
Proof.
  unfold guest_item.
  destruct (is_str (status g) "running"); [reflexivity|].
  destruct (is_str (status g) "stopped"); reflexivity.
Qed.

Lemma parse_guest_item (g : Guest) (id : Z) :
  vmid g = Some id -> 0 <= id ->
  Text.re_search_ID (text (guest_item g)) = Some (Text.str_int id).
Proof.
  intros Hid Hpos. rewrite text_guest_item, Hid. cbn [fmt_int].
  now apply (re_search_ID_row id ("| " ++ fmt_str (name g) ++ " | " ++ fmt_str (status g))).
Qed.

(** C8.  A row is rendered by the poll tick as [ID: <id> | <name> | <status>];
    when that row is the selected one, the dispatcher's extraction (first match
    of [ID:] followed by digits, read as an integer) returns exactly the
    guest's id, whatever the name and the status are, for every nonnegative
    id.  Nothing is shown and nothing else changes. *)
Theorem render_then_parse_roundtrip
    (list_widget : Display -> QListWidget) (item_type : string) (s : App)
    (g : Guest) (id : Z) (others : list QListWidgetItem) :
  vmid g = Some id -> 0 <= id ->
  Widget.selectedItems (list_widget (ui s)) = guest_item g :: others ->
  _get_selected_vmid list_widget item_type s = (Returned (Some id), s).
Proof.
  intros Hid Hpos Hsel. unfold _get_selected_vmid, bind, gets.
  rewrite Hsel, (parse_guest_item g id Hid Hpos).
  unfold ret. now rewrite (int_str_str_int id Hpos).
Qed.

(** ** Reasoning about callbacks *)

Section Keeps.

Context {X : Type} (obs : App -> X).

Lemma keeps_ret {A} (a : A) : keeps obs (ret a).
Proof. intros s. reflexivity. Qed.

Lemma keeps_raise {A} (e : exn) : keeps obs (@raise A e).
Proof. intros s. reflexivity. Qed.

Lemma keeps_gets {A} (f : App -> A) : keeps obs (gets f).
Proof. intros s. reflexivity. Qed.

Lemma keeps_bind {A B} (m : M A) (k : A -> M B) :
  keeps obs m -> (forall a, keeps obs (k a)) -> keeps obs (bind m k).
Proof.
  intros Hm Hk s. unfold bind. specialize (Hm s).
  destruct (m s) as [[a|e] s1]; cbn [snd] in *.
  - now rewrite Hk.
  - assumption.
Qed.

Lemma keeps_try_except {A} (body : M A) (handler : exn -> M A) :
  keeps obs body -> (forall e, keeps obs (handler e)) ->
  keeps obs (try_except body handler).
Proof.
  intros Hm Hk s. unfold try_except. specialize (Hm s).
  destruct (body s) as [[a|e] s1]; cbn [snd] in *.
  - assumption.
  - now rewrite Hk.
Qed.

Lemma keeps_for_each {A} (l : list A) (body : A -> M unit) :
  (forall a, keeps obs (body a)) -> keeps obs (for_each l body).
Proof.
  intros Hb. induction l as [|a l IH]; cbn [for_each].
  - apply keeps_ret.
  - apply keeps_bind; auto.
Qed.

Lemma keeps_request {A} (r : Request) (answer : outcome A) :
  keeps obs (emit (Api r)) -> keeps obs (request r answer).
Proof.
  intros He. unfold request. apply keeps_bind; [assumption|].
  intros _. destruct answer; [apply keeps_ret|apply keeps_raise].
Qed.

End Keeps.

Lemma returns_ret {A} (a : A) : returns (ret a).
Proof. intros s. now exists a. Qed.

Lemma returns_gets {A} (f : App -> A) : returns (gets f).
Proof. intros s. now exists (f s). Qed.

Lemma returns_emit (e : Event) : returns (emit e).
Proof. intros s. now exists tt. Qed.

Lemma returns_modify_ui (f : Display -> Display) : returns (modify_ui f).
Proof. intros s. now exists tt. Qed.

Lemma returns_bind {A B} (m : M A) (k : A -> M B) :
  returns m -> (forall a, returns (k a)) -> returns (bind m k).
Proof.
  intros Hm Hk s. unfold bind. destruct (Hm s) as [a Ha].
  destruct (m s) as [[a'|e] s1]; cbn [fst] in Ha; [|discriminate].
  apply Hk.
Qed.

Lemma returns_try_except {A} (body : M A) (handler : exn -> M A) :
  (forall e, returns (handler e)) -> returns (try_except body handler).
Proof.
  intros Hk s. unfold try_except.
  destruct (body s) as [[a|e] s1]; [now exists a|apply Hk].
Qed.

(** One structural step on a goal [keeps obs m] or [returns m]. *)
Ltac callback_step :=
  lazymatch goal with
  | |- keeps _ (bind _ _) => apply keeps_bind; [|intros ?]
  | |- keeps _ (try_except _ _) => apply keeps_try_except; [|intros ?]
  | |- keeps _ (for_each _ _) => apply keeps_for_each; intros ?
  | |- keeps _ (request _ _) => apply keeps_request
  | |- keeps _ (ret _) => apply keeps_ret
  | |- keeps _ (raise _) => apply keeps_raise
  | |- keeps _ (gets _) => apply keeps_gets
  | |- keeps _ (match ?x with _ => _ end) => destruct x
  | |- returns (bind _ _) => apply returns_bind; [|intros ?]
  | |- returns (try_except _ _) => apply returns_try_except; intros ?
  | |- returns (ret _) => apply returns_ret
  | |- returns (gets _) => apply returns_gets
  | |- returns (emit _) => apply returns_emit
  | |- returns (modify_ui _) => apply returns_modify_ui
  | |- returns (match ?x with _ => _ end) => destruct x
  end.

(** A primitive keeps an observation when it writes another field. *)
Ltac keeps_prim :=
  lazymatch goal with
  | |- keeps _ _ =>
      let s := fresh "s" in
      intros s; cbn; rewrite ?filter_app; cbn; rewrite ?app_nil_r; reflexivity
  end.

Ltac callback := repeat (cbv zeta; callback_step); try keeps_prim.

Lemma returns_set_error_state : returns set_error_state.
Proof. unfold set_error_state, setText. callback. Qed.

(** ** The trace only grows *)

Lemma new_events_app (s s' : App) (l : list Event) :
  trace s' = (trace s ++ l)%list -> new_events s s' = l.
Proof.
  intros H. unfold new_events. rewrite H. clear H.
  induction (trace s) as [|e t IH]; [reflexivity|exact IH].
Qed.

Lemma new_events_same (s : App) : new_events s s = [].
Proof. apply new_events_app. now rewrite app_nil_r. Qed.

Lemma new_events_emit (e : Event) (s : App) :
  new_events s (snd (emit e s)) = [e].
Proof. now apply new_events_app. Qed.

(** ** Poll tick without a handle *)

(** C7.  A poll tick that runs while the connection handle is absent writes
    the error text to all four host labels, replaces each guest list by the
    single row "Disconnected", returns, and adds no effect at all to the
    trace: no API fetch is issued. *)
Theorem disconnected_tick (env : Env) (s : App) :
  proxmox s = None ->
  fst (update_stats env s) = Returned tt
  /\ (forall g, gauge_label g (ui (snd (update_stats env s))) = error_text g)
  /\ vm_list (ui (snd (update_stats env s)))
     = {| items := [Widget.item "Disconnected"]; selectedRow := None |}
  /\ container_list (ui (snd (update_stats env s)))
     = {| items := [Widget.item "Disconnected"]; selectedRow := None |}
  /\ new_events s (snd (update_stats env s)) = []
  /\ filter is_api (trace (snd (update_stats env s))) = filter is_api (trace s).
Proof.
  intros Hpx. unfold update_stats, bind, gets. rewrite Hpx. cbn.
  repeat match goal with |- _ /\ _ => split end;
    try reflexivity; try (intros []; reflexivity).
  apply new_events_app. cbn. now rewrite app_nil_r.
Qed.

Lemma disconnected_tick_witness :
  proxmox blank = None
  /\ vm_list (ui (snd (update_stats down blank)))
     = {| items := [Widget.item "Disconnected"]; selectedRow := None |}.
Proof.
  split; [reflexivity|].
  apply (disconnected_tick down blank). reflexivity.
Defined.

(** ** The dispatcher *)

Lemma clicked_unfold (env : Env) (b : Button) :
  clicked env b
  = (id <- _get_selected_vmid (button_list b) (button_item_type b) ;;
     _perform_action env id (button_action b) (button_resource b)).
Proof. destruct b; reflexivity. Qed.

Lemma get_selected_none (w : Display -> QListWidget) (ty : string) (s : App) :
  Widget.selectedItems (w (ui s)) = [] ->
  _get_selected_vmid w ty s
  = (Returned None,
     snd (emit (MessageBox Warning "Selection" ("Select a " ++ ty ++ " first.")) s)).
Proof.
  intros Hsel. unfold _get_selected_vmid, bind, gets. now rewrite Hsel.
Qed.

Lemma get_selected_some (w : Display -> QListWidget) (ty : string) (s : App)
    (it : QListWidgetItem) (others : list QListWidgetItem) :
  Widget.selectedItems (w (ui s)) = it :: others ->
  _get_selected_vmid w ty s
  = (Returned (option_map Text.int_str (Text.re_search_ID (text it))), s).
Proof.
  intros Hsel. unfold _get_selected_vmid, bind, gets. rewrite Hsel.
  now destruct (Text.re_search_ID (text it)).
Qed.

Lemma perform_action_None (env : Env) (a : Action) (r : Resource) (s : App) :
  _perform_action env None a r s = (Returned tt, s).
Proof. unfold _perform_action, bind, gets. now destruct (proxmox s). Qed.

Lemma perform_action_offline (env : Env) (id : option Z) (a : Action)
    (r : Resource) (s : App) :
  proxmox s = None -> _perform_action env id a r s = (Returned tt, s).
Proof.
  intros Hpx. unfold _perform_action, bind, gets. rewrite Hpx.
  now destruct id.
Qed.

(** C3, as the code has it.  When no row is selected, a click shows the
    warning "Select a VM/CT first." and does nothing else: no API call.  When
    a row is selected but its text holds no identifier, a click does nothing
    at all: no API call, and no warning either. *)
Theorem dispatch_unresolved (env : Env) (b : Button) (s : App) :
  (Widget.selectedItems (button_list b (ui s)) = [] ->
   clicked env b s
   = emit (MessageBox Warning "Selection"
             ("Select a " ++ button_item_type b ++ " first.")) s)
  /\ (forall it others,
        Widget.selectedItems (button_list b (ui s)) = it :: others ->
        Text.re_search_ID (text it) = None ->
        clicked env b s = (Returned tt, s)).
Proof.
  rewrite clicked_unfold. split.
  - intros Hsel. unfold bind at 1. rewrite (get_selected_none _ _ _ Hsel).
    apply perform_action_None.
  - intros it others Hsel Hre. unfold bind at 1.
    rewrite (get_selected_some _ _ _ _ _ Hsel), Hre.
    apply perform_action_None.
Qed.

Lemma dispatch_unresolved_witness :
  new_events online (snd (clicked down vm_start_button online))
  = [MessageBox Warning "Selection" "Select a VM first."]
  /\ clicked down vm_start_button
       (with_vm_rows [Widget.item "Disconnected"] (Some 0%nat) online)
     = (Returned tt, with_vm_rows [Widget.item "Disconnected"] (Some 0%nat) online).
Proof.
  split.
  - rewrite (proj1 (dispatch_unresolved down vm_start_button online) eq_refl).
    reflexivity.
  - apply (proj2 (dispatch_unresolved down vm_start_button
                    (with_vm_rows [Widget.item "Disconnected"] (Some 0%nat) online))
             (Widget.item "Disconnected") []); reflexivity.
Defined.

(** C3, as stated, fails: with the placeholder row "Disconnected" selected
    (a row whose text holds no identifier) a click on Start shows no warning;
    the trace gains no event. *)
Lemma unparsable_row_no_warning :
  Widget.selectedItems
    (vm_list (ui (with_vm_rows [Widget.item "Disconnected"] (Some 0%nat) online)))
  = [Widget.item "Disconnected"]
  /\ Text.re_search_ID (text (Widget.item "Disconnected")) = None
  /\ existsb is_warning
       (new_events
          (with_vm_rows [Widget.item "Disconnected"] (Some 0%nat) online)
          (snd (clicked (server (status_of load) [] []) vm_start_button
                  (with_vm_rows [Widget.item "Disconnected"] (Some 0%nat) online))))
     = false.
Proof. repeat split. Qed.

Lemma perform_action_online (env : Env) (id : Z) (a : Action) (r : Resource)
    (s : App) (p : ProxmoxAPI) :
  proxmox s = Some p ->
  _perform_action env (Some id) a r s
  = try_except
      (request (POST_status (PROXMOX_NODE env) r id (actions a))
         (guest_status_post env r id a) ;;
       emit (SingleShot 2000 slot_update_stats))
      (fun e =>
         match e with
         | ResourceException m =>
             emit (MessageBox Critical "Error" ("Action failed: " ++ m))
         | Exception m =>
             emit (MessageBox Critical "Error" ("Unexpected error: " ++ m))
         end) s.
Proof. intros Hpx. unfold _perform_action, bind at 1, gets. now rewrite Hpx. Qed.

(** C4.  A click with a row selected whose text yields the id, while the
    handle is present, posts the action once.  If the call returns, the only
    other effect is one one-shot timer of 2000 ms on [update_stats]: one
    re-poll, no dialog.  If the call raises, the only other effect is one
    critical message box whose text ends with the failure detail: no re-poll.
    Either way the handler returns (nothing propagates to the event loop) and
    the widgets are untouched. *)
Theorem action_outcome (env : Env) (b : Button) (s : App) (p : ProxmoxAPI)
    (it : QListWidgetItem) (others : list QListWidgetItem) (group1 : string) :
  proxmox s = Some p ->
  Widget.selectedItems (button_list b (ui s)) = it :: others ->
  Text.re_search_ID (text it) = Some group1 ->
  let id := Text.int_str group1 in
  let post :=
    Api (POST_status (PROXMOX_NODE env) (button_resource b) id
           (actions (button_action b))) in
  fst (clicked env b s) = Returned tt
  /\ ui (snd (clicked env b s)) = ui s
  /\ new_events s (snd (clicked env b s))
     = match guest_status_post env (button_resource b) id (button_action b) with
       | Returned _ => [post; SingleShot 2000 slot_update_stats]
       | Raised (ResourceException detail) =>
           [post; MessageBox Critical "Error" ("Action failed: " ++ detail)]
       | Raised (Exception detail) =>
           [post; MessageBox Critical "Error" ("Unexpected error: " ++ detail)]
       end.
Proof.
  intros Hpx Hsel Hre id post.
  assert (Hrun : clicked env b s
                 = _perform_action env (Some id) (button_action b)
                     (button_resource b) s).
  { rewrite clicked_unfold. unfold bind at 1.
    now rewrite (get_selected_some _ _ _ _ _ Hsel), Hre. }
  rewrite Hrun, (perform_action_online _ _ _ _ _ _ Hpx).
  unfold try_except, request, bind, emit, ret, raise.
  destruct (guest_status_post env (button_resource b) id (button_action b))
    as [[]|[detail|detail]]; cbn;
    (split; [reflexivity|split; [reflexivity|]]);
    apply new_events_app; cbn; now rewrite <- app_assoc.
Qed.

Lemma action_outcome_witness :
  new_events (with_vm_rows [guest_item web] (Some 0%nat) online)
    (snd (clicked (server (status_of load) [web] []) vm_stop_button
            (with_vm_rows [guest_item web] (Some 0%nat) online)))
  = [Api (POST_status "pve" vm 101 "stop"); SingleShot 2000 slot_update_stats]
  /\ new_events (with_vm_rows [guest_item web] (Some 0%nat) online)
       (snd (clicked down vm_stop_button
               (with_vm_rows [guest_item web] (Some 0%nat) online)))
     = [Api (POST_status "pve" vm 101 "stop");
        MessageBox Critical "Error" "Unexpected error: connection refused"].
Proof.
  split.
  - apply (action_outcome (server (status_of load) [web] []) vm_stop_button
             (with_vm_rows [guest_item web] (Some 0%nat) online)
             {| session := 0 |} (guest_item web) [] "101");
      reflexivity.
  - apply (action_outcome down vm_stop_button
             (with_vm_rows [guest_item web] (Some 0%nat) online)
             {| session := 0 |} (guest_item web) [] "101");
      reflexivity.
Defined.

(** C10.  While the connection handle is absent, [_perform_action] returns at
    its guard for every id, action and kind, and a click on any of the eight
    buttons with a row selected whose text yields an id leaves the whole state
    as it was: no API call, no dialog. *)
Theorem offline_click_is_inert (env : Env) (s : App) :
  proxmox s = None ->
  (forall id a r, _perform_action env id a r s = (Returned tt, s))
  /\ (forall b it others group1,
        Widget.selectedItems (button_list b (ui s)) = it :: others ->
        Text.re_search_ID (text it) = Some group1 ->
        clicked env b s = (Returned tt, s)).
Proof.
  intros Hpx. split.
  - intros id a r. now apply perform_action_offline.
  - intros b it others group1 Hsel Hre.
    rewrite clicked_unfold. unfold bind at 1.
    rewrite (get_selected_some _ _ _ _ _ Hsel).
    now apply perform_action_offline.
Qed.

Lemma offline_click_is_inert_witness :
  proxmox (with_vm_rows [guest_item web] (Some 0%nat) blank) = None
  /\ clicked (server (status_of load) [web] []) vm_start_button
       (with_vm_rows [guest_item web] (Some 0%nat) blank)
     = (Returned tt, with_vm_rows [guest_item web] (Some 0%nat) blank).
Proof.
  split; [reflexivity|].
  apply (proj2 (offline_click_is_inert (server (status_of load) [web] [])
                  (with_vm_rows [guest_item web] (Some 0%nat) blank) eq_refl)
           vm_start_button (guest_item web) [] "101"); reflexivity.
Defined.

Lemma render_then_parse_roundtrip_witness :
  vmid web = Some 101 /\ 0 <= 101
  /\ _get_selected_vmid vm_list "VM"
       (with_vm_rows [guest_item web] (Some 0%nat) online)
     = (Returned (Some 101), with_vm_rows [guest_item web] (Some 0%nat) online).
Proof.
  split; [reflexivity|split; [lia|]].
  apply (render_then_parse_roundtrip vm_list "VM"
           (with_vm_rows [guest_item web] (Some 0%nat) online) web 101 []);
    [reflexivity|lia|reflexivity].
Defined.

(** X18.  No callback lets an exception out into the event loop: a tick, a
    click on any button and a selection change return whatever the server
    answers or raises. *)
(** ** The connection state after startup *)

(** What C9 is about: the two globals and the sessions opened so far. *)
Lemma dispatch_keeps_connection (ev : UIEvent) :
  keeps (fun s => (proxmox s, connection_error_details s,
                   filter is_new_session (trace s)))
    (dispatch ev).
Proof.
  destruct ev as [env|env b|r row]; cbn [dispatch].
  - unfold update_stats, set_error_state, setText, setValue, lift, logger_error.
    callback.
  - rewrite clicked_unfold. unfold _get_selected_vmid, _perform_action. callback.
  - callback.
Qed.

(** C9.  Whatever the event loop delivers after startup (timer ticks, button
    clicks, selection changes, in any number and order, whatever the server
    answers or raises), the connection handle and the recorded connection error
    stay as startup left them and no new session is ever opened: no callback
    reconnects. *)
Theorem connection_state_frame (evs : list UIEvent) (s : App) :
  proxmox (exec evs s) = proxmox s
  /\ connection_error_details (exec evs s) = connection_error_details s
  /\ filter is_new_session (trace (exec evs s))
     = filter is_new_session (trace s).
Proof.
  revert s. induction evs as [|ev evs IH]; intros s; cbn [exec].
  - repeat split.
  - destruct (IH (snd (dispatch ev s))) as (Hp & Hd & Ht).
    pose proof (dispatch_keeps_connection ev s) as Hk. cbv beta in Hk.
    injection Hk as Hp' Hd' Ht'.
    rewrite Hp, Hd, Ht. auto.
Qed.

Example failed_fetches_keep_handle :
  proxmox (exec [Timeout down; Clicked down vm_stop_button; Timeout down]
             (with_vm_rows [guest_item web] (Some 0%nat) online))
  = Some {| session := 0 |}.
Proof. reflexivity. Qed.

(** ** Startup *)

Ltac trace_tail :=
  erewrite new_events_app
    by (cbn [trace]; rewrite <- ?app_assoc; cbn [app]; reflexivity).

(** C6.  The startup sequence makes at most 3 attempts; an attempt opens a
    session and validates it with a version query, and succeeds when both
    return.  The sequence stops at the first attempt that succeeds and
    reports [True]; it reports [False] exactly when all three fail; it never
    raises.  Between two consecutive attempts, and nowhere else, it sleeps 2
    seconds. *)
Theorem startup_retry (env : Env) (s : App) :
  let ok1 := attempt_ok env 0 in
  let ok2 := attempt_ok env 1 in
  let ok3 := attempt_ok env 2 in
  let attempts := if ok1 then 1%nat else if ok2 then 2%nat else 3%nat in
  let events := new_events s (snd (initialize_proxmox_connection env s)) in
  fst (initialize_proxmox_connection env s) = Returned (ok1 || ok2 || ok3)
  /\ List.length (filter is_new_session events) = attempts
  /\ filter is_attempt_or_sleep events
     = match attempts with
       | 1%nat => [Api NewSession]
       | 2%nat => [Api NewSession; Sleep 2; Api NewSession]
       | _ => [Api NewSession; Sleep 2; Api NewSession; Sleep 2; Api NewSession]
       end
  /\ List.length (filter is_version_query events)
     = List.length (filter (session_opened env) (firstn attempts [0; 1; 2]%nat)).
Proof.
  unfold initialize_proxmox_connection, attempt_ok, session_opened, max_retries.
  cbn [seq connect_loop].
  unfold bind, try_except, connect_attempt, connect_failed, request, bind,
    logger_info, logger_error, emit, set_proxmox, set_connection_error_details,
    ret, raise.
  destruct (api_connect env 0%nat) as [h0|e0] eqn:Hc0;
    [destruct (version_get env 0%nat) as [[]|v0]|];
    cbn;
    try (destruct (api_connect env 1%nat) as [h1|e1] eqn:Hc1;
         [destruct (version_get env 1%nat) as [[]|v1]|];
         cbn;
         try (destruct (api_connect env 2%nat) as [h2|e2] eqn:Hc2;
              [destruct (version_get env 2%nat) as [[]|v2]|];
              cbn));
    trace_tail; cbn; rewrite ?Hc0, ?Hc1, ?Hc2; cbn; repeat split; lia.
Qed.

Example startup_server_down :
  fst (initialize_proxmox_connection down blank) = Returned false
  /\ filter is_attempt_or_sleep
       (trace (snd (initialize_proxmox_connection down blank)))
     = [Api NewSession; Sleep 2; Api NewSession; Sleep 2; Api NewSession].
Proof. split; reflexivity. Qed.

Example startup_second_attempt :
  fst (initialize_proxmox_connection flaky blank) = Returned true
  /\ filter (fun e => negb (match e with Logged _ _ => true | _ => false end))
       (trace (snd (initialize_proxmox_connection flaky blank)))
     = [Api NewSession; Api GET_version; Sleep 2; Api NewSession; Api GET_version]
  /\ proxmox (snd (initialize_proxmox_connection flaky blank))
     = Some {| session := 1 |}.
Proof. repeat split; reflexivity. Qed.

(** ** Sorting *)

Lemma insert_by_perm {A} (key : A -> Z) (x : A) (l : list A) :
  Permutation (insert_by key x l) (x :: l).
Proof.
  induction l as [|y l IH]; cbn [insert_by].
  - apply Permutation_refl.
  - destruct (key x <=? key y).
    + apply Permutation_refl.
    + eapply perm_trans; [apply perm_skip, IH|apply perm_swap].
Qed.

Lemma sorted_perm {A} (key : A -> Z) (l : list A) :
  Permutation (sorted key l) l.
Proof.
  induction l as [|x l IH]; cbn [sorted fold_right].
  - apply perm_nil.
  - eapply perm_trans; [apply insert_by_perm|]. now apply perm_skip.
Qed.

Section Ascending.

Context {A : Type} (key : A -> Z).

Lemma insert_by_Forall (P : A -> Prop) (x : A) (l : list A) :
  P x -> Forall P l -> Forall P (insert_by key x l).
Proof.
  intros Hx Hl. induction Hl as [|y l Hy Hl IH]; cbn [insert_by].
  - auto.
  - destruct (key x <=? key y); auto.
Qed.

Lemma insert_by_sorted (x : A) (l : list A) :
  StronglySorted (le_by key) l -> StronglySorted (le_by key) (insert_by key x l).
Proof.
  induction 1 as [|y l Hs IH Hy]; cbn [insert_by].
  - repeat constructor.
  - destruct (Z.leb_spec (key x) (key y)) as [Hle|Hgt].
    + constructor; [now constructor|].
      constructor; [exact Hle|].
      eapply Forall_impl; [|exact Hy]. unfold le_by. intros; lia.
    + constructor; [exact IH|].
      apply insert_by_Forall; [unfold le_by; lia|exact Hy].
Qed.

Lemma sorted_ascending (l : list A) :
  StronglySorted (le_by key) (sorted key l).
Proof.
  induction l as [|x l IH]; cbn [sorted fold_right].
  - constructor.
  - now apply insert_by_sorted.
Qed.

End Ascending.

Example sorted_sample : sorted vmid_key [web; db] = [db; web].
Proof. reflexivity. Qed.

Lemma sorted_unique {A} (key : A -> Z) (l1 : list A) :
  forall l2,
    StronglySorted (le_by key) l1 -> StronglySorted (le_by key) l2 ->
    Permutation l1 l2 -> NoDup (map key l1) -> l1 = l2.
Proof.
  induction l1 as [|a l1 IH]; intros l2 H1 H2 Hp Hnd.
  - apply Permutation_nil in Hp. now subst.
  - destruct l2 as [|b l2]; [apply Permutation_sym, Permutation_nil in Hp; discriminate|].
    apply StronglySorted_inv in H1 as [H1 Ha].
    apply StronglySorted_inv in H2 as [H2 Hb].
    rewrite Forall_forall in Ha, Hb.
    cbn [map] in Hnd. apply NoDup_cons_iff in Hnd as [Hnin Hnd].
    assert (Hab : key b <= key a).
    { assert (Hin : In a (b :: l2)) by (eapply Permutation_in; [exact Hp|now left]).
      destruct Hin as [->|Hin]; [lia|]. apply (Hb _ Hin). }
    assert (Heq : b = a).
    { assert (Hin : In b (a :: l1))
        by (eapply Permutation_in; [apply Permutation_sym; exact Hp|now left]).
      destruct Hin as [->|Hin]; [reflexivity|].
      exfalso. apply Hnin.
      assert (key a = key b) by (pose proof (Ha _ Hin); unfold le_by in *; lia).
      rewrite H. now apply in_map. }
    subst b. f_equal. apply IH; try assumption.
    now apply Permutation_cons_inv in Hp.
Qed.

Lemma sorted_ignores_order {A} (key : A -> Z) (l l' : list A) :
  Permutation l l' -> NoDup (map key l) -> sorted key l = sorted key l'.
Proof.
  intros Hp Hnd. apply (sorted_unique key).
  - apply sorted_ascending.
  - apply sorted_ascending.
  - eapply perm_trans; [apply sorted_perm|].
    eapply perm_trans; [exact Hp|apply Permutation_sym, sorted_perm].
  - eapply Permutation_NoDup; [|exact Hnd].
    apply Permutation_map, Permutation_sym, sorted_perm.
Qed.



(** ** Percentages *)




(** ** Rounding to a double *)

Section Doubles.

Import Num.

Local Open Scope Q_scope.

Lemma pow2_pos e : 0 < pow2 e.
Proof. apply Qpower_0_lt. reflexivity. Qed.

Lemma pow2_add a b : pow2 (a + b) == pow2 a * pow2 b.
Proof. apply Qpower_plus. discriminate. Qed.


Lemma pow2_lt a b : (a < b)%Z -> pow2 a < pow2 b.
Proof. intros H. apply Qpower_lt_compat_l; [exact H|reflexivity]. Qed.

Lemma pow2_Z n : (0 <= n)%Z -> pow2 n == inject_Z (2 ^ n).
Proof. intros H. unfold pow2. now rewrite (Zpower_Qpower 2 n H). Qed.

Lemma log2_bracket (n : Z) :
  (0 < n)%Z -> pow2 (Z.log2 n) <= inject_Z n < pow2 (Z.log2 n + 1).
Proof.
  intros Hn. pose proof (Z.log2_spec n Hn) as [Hlo Hhi].
  pose proof (Z.log2_nonneg n) as H0.
  rewrite !pow2_Z by lia. rewrite <- Z.add_1_r in Hhi.
  split; [now rewrite <- Zle_Qle|now rewrite <- Zlt_Qlt].
Qed.

Lemma ilog2_bracket (x : Q) :
  0 < x -> pow2 (ilog2 x) <= x < pow2 (ilog2 x + 1).
Proof.
  intros Hx. destruct x as [n d].
  assert (Hn : (0 < n)%Z) by (unfold Qlt in Hx; cbn in Hx; lia).
  pose proof (log2_bracket n Hn) as [HnL HnH].
  pose proof (log2_bracket (Zpos d) eq_refl) as [HdL HdH].
  set (a := Z.log2 n) in *. set (b := Z.log2 (Zpos d)) in *.
  assert (Hx' : n # d == inject_Z n / inject_Z (Zpos d)) by apply Qmake_Qdiv.
  assert (HD : 0 < inject_Z (Zpos d)) by reflexivity.
  assert (Hup : n # d < pow2 (a - b + 1)).
  { rewrite Hx'. apply Qlt_shift_div_r; [exact HD|].
    apply Qlt_le_trans with (pow2 (a - b + 1) * pow2 b).
    - rewrite <- pow2_add. now replace (a - b + 1 + b)%Z with (a + 1)%Z by ring.
    - apply Qmult_le_l; [apply pow2_pos|exact HdL]. }
  assert (Hlow : pow2 (a - b - 1) < n # d).
  { rewrite Hx'. apply Qlt_shift_div_l; [exact HD|].
    apply Qlt_le_trans with (pow2 (a - b - 1) * pow2 (b + 1)).
    - apply Qmult_lt_l; [apply pow2_pos|exact HdH].
    - rewrite <- pow2_add. now replace (a - b - 1 + (b + 1))%Z with a by ring. }
  unfold ilog2. cbn [Qnum Qden]. fold a b.
  destruct (Qle_bool (pow2 (a - b)) (n # d)) eqn:E.
  - apply Qle_bool_iff in E. split; assumption.
  - split.
    + now apply Qlt_le_weak.
    + replace (a - b - 1 + 1)%Z with (a - b)%Z by ring.
      apply Qnot_le_lt. intros H. apply Qle_bool_iff in H. congruence.
Qed.

Lemma ilog2_unique (x : Q) (k : Z) :
  pow2 k <= x < pow2 (k + 1) -> ilog2 x = k.
Proof.
  intros [Hlo Hhi].
  assert (Hx : 0 < x) by (eapply Qlt_le_trans; [apply pow2_pos|exact Hlo]).
  destruct (ilog2_bracket x Hx) as [Blo Bhi].
  assert (H1 : (k < ilog2 x + 1)%Z).
  { apply Qpower_lt_compat_l_inv with (q := 2); [|reflexivity].
    eapply Qle_lt_trans; [exact Hlo|exact Bhi]. }
  assert (H2 : (ilog2 x < k + 1)%Z).
  { apply Qpower_lt_compat_l_inv with (q := 2); [|reflexivity].
    eapply Qle_lt_trans; [exact Blo|exact Hhi]. }
  lia.
Qed.


Lemma py_round_between (x : Q) :
  (Qfloor x <= py_round x <= Qfloor x + 1)%Z.
Proof.
  unfold py_round. destruct (x - inject_Z (Qfloor x) ?= 1 # 2);
    [destruct (Z.even (Qfloor x))| |]; lia.
Qed.

Lemma py_round_Z (n : Z) : py_round (inject_Z n) = n.
Proof.
  unfold py_round. rewrite Qfloor_Z.
  assert (H : inject_Z n - inject_Z n == 0) by ring.
  assert (E : (inject_Z n - inject_Z n ?= 1 # 2) = Lt).
  { apply Qlt_alt. rewrite H. reflexivity. }
  now rewrite E.
Qed.

Lemma py_round_mono (x y : Q) : x <= y -> (py_round x <= py_round y)%Z.
Proof.
  intros Hxy. pose proof (Qfloor_resp_le x y Hxy) as Hf.
  pose proof (py_round_between x) as Bx. pose proof (py_round_between y) as By.
  destruct (Z.eq_dec (Qfloor x) (Qfloor y)) as [E|NE]; [|lia].
  clear Bx By. unfold py_round. rewrite <- E.
  set (f := Qfloor x).
  assert (Hr : x - inject_Z f <= y - inject_Z f) by lra.
  destruct (Qcompare_spec (x - inject_Z f) (1 # 2)) as [Ex|Ex|Ex];
    destruct (Qcompare_spec (y - inject_Z f) (1 # 2)) as [Ey|Ey|Ey];
    try (destruct (Z.even f)); try lia; exfalso; lra.
Qed.

Lemma py_round_comp (x y : Q) : x == y -> py_round x = py_round y.
Proof.
  intros E. apply Z.le_antisymm; apply py_round_mono; rewrite E; apply Qle_refl.
Qed.

Lemma round_pos_eq (x : Q) :
  round_pos x = inject_Z (py_round (x / pow2 (expo x))) * pow2 (expo x).
Proof. reflexivity. Qed.






Lemma round_pos_nonneg (x : Q) : 0 < x -> 0 <= round_pos x.
Proof.
  intros Hx. rewrite round_pos_eq.
  apply Qmult_le_0_compat; [|apply Qlt_le_weak, pow2_pos].
  change 0 with (inject_Z 0). rewrite <- Zle_Qle.
  rewrite <- (py_round_Z 0). apply py_round_mono.
  apply Qle_shift_div_l; [apply pow2_pos|]. rewrite Qmult_0_l.
  now apply Qlt_le_weak.
Qed.


Lemma ilog2_comp (x y : Q) : 0 < x -> x == y -> ilog2 x = ilog2 y.
Proof.
  intros Hx E. apply ilog2_unique. rewrite E.
  apply ilog2_bracket. now rewrite <- E.
Qed.

Lemma round_pos_comp (x y : Q) : 0 < x -> x == y -> round_pos x == round_pos y.
Proof.
  intros Hx E. rewrite !round_pos_eq. unfold expo.
  rewrite (ilog2_comp x y Hx E).
  set (e := Z.max (ilog2 y - 52) (-1074)).
  assert (Hq : x / pow2 e == y / pow2 e) by now rewrite E.
  now rewrite (py_round_comp _ _ Hq).
Qed.



Lemma fl_neg (x : Q) : x < 0 -> fl x == - round_pos (- x).
Proof.
  intros Hx. unfold fl. cbv zeta. pose proof (Qred_correct x) as Hr.
  destruct (Qcompare_spec (Qred x) 0) as [E|E|E];
    try (rewrite Hr in E; exfalso; lra).
  rewrite Qred_correct.
  apply Qopp_comp. apply round_pos_comp; [rewrite Hr; lra|now rewrite Hr].
Qed.

Lemma fl_zero (x : Q) : x == 0 -> fl x == 0.
Proof.
  intros Hx. unfold fl. cbv zeta. pose proof (Qred_correct x) as Hr.
  destruct (Qcompare_spec (Qred x) 0) as [E|E|E];
    try (rewrite Hr in E; exfalso; lra).
  reflexivity.
Qed.


Lemma fl_nonpos (x : Q) : x <= 0 -> fl x <= 0.
Proof.
  intros Hx. destruct (Qeq_dec x 0) as [E|NE].
  - rewrite (fl_zero x E). apply Qle_refl.
  - assert (H : x < 0).
    { apply Qnot_le_lt. intros H. apply NE. now apply Qle_antisym. }
    rewrite (fl_neg x H).
    assert (0 <= round_pos (- x)) by (apply round_pos_nonneg; lra). lra.
Qed.













End Doubles.

Example double_of_a_tenth :
  Num.fl (1 # 10) = (3602879701896397 # 36028797018963968)%Q.
Proof. vm_compute. reflexivity. Qed.

(** [0.29 * 100] is a little less than 29 in doubles. *)
Example double_percent_of_29 :
  Num.py_int (Num.fmul (Num.fl (29 # 100)) 100) = 28.
Proof. vm_compute. reflexivity. Qed.

(** ** Widget-wise rewrites *)

Lemma sets_or_keeps_comp {A} (f g : A -> A) :
  sets_or_keeps f -> sets_or_keeps g -> sets_or_keeps (fun x => g (f x)).
Proof.
  intros [Hf|[c Hf]] [Hg|[c' Hg]].
  - left. intros x. now rewrite Hf, Hg.
  - right. exists c'. intros x. apply Hg.
  - right. exists c. intros x. now rewrite Hg, Hf.
  - right. exists c'. intros x. apply Hg.
Qed.

Lemma sets_or_keeps_twice {A} (f : A -> A) (x : A) :
  sets_or_keeps f -> f (f x) = f x.
Proof. intros [Hf|[c Hf]]; [now rewrite !Hf|now rewrite (Hf (f x)), Hf]. Qed.

Lemma patches_comp (f g : QProgressBar -> QProgressBar) :
  patches f -> patches g -> patches (fun b => g (f b)).
Proof.
  intros (v & fmt & Hf) (v' & fmt' & Hg).
  exists (match v' with Some _ => v' | None => v end),
         (match fmt' with Some _ => fmt' | None => fmt end).
  intros b. rewrite Hg, Hf. unfold bar_patch. cbn [value format].
  destruct v', fmt'; reflexivity.
Qed.

Lemma patches_twice (f : QProgressBar -> QProgressBar) (b : QProgressBar) :
  patches f -> f (f b) = f b.
Proof.
  intros (v & fmt & Hf). rewrite (Hf (f b)), Hf. unfold bar_patch.
  cbn [value format]. destruct v, fmt; reflexivity.
Qed.

Lemma patches_keep : patches keep.
Proof. exists None, None. intros []. reflexivity. Qed.

Lemma patches_setValue (v : Z) : patches (Widget.setValue v).
Proof.
  exists (if (0 <=? v) && (v <=? 100) then Some v else None), None.
  intros [val fmt]. unfold Widget.setValue, bar_patch.
  destruct ((0 <=? v) && (v <=? 100)); reflexivity.
Qed.

Lemma patches_setFormat (f : string) : patches (Widget.setFormat f).
Proof. exists None, (Some f). intros []. reflexivity. Qed.

Lemma tidy_comp (F G : Display -> Display) :
  tidy F -> tidy G -> tidy (fun d => G (F d)).
Proof.
  intros (a1 & a2 & a3 & a4 & b1 & b2 & b3 & b4 & l1 & l2 & HF
          & (A1 & A2 & A3 & A4) & (B1 & B2 & B3 & B4) & L1 & L2)
         (a1' & a2' & a3' & a4' & b1' & b2' & b3' & b4' & l1' & l2' & HG
          & (A1' & A2' & A3' & A4') & (B1' & B2' & B3' & B4') & L1' & L2').
  exists (fun x => a1' (a1 x)), (fun x => a2' (a2 x)), (fun x => a3' (a3 x)),
         (fun x => a4' (a4 x)), (fun x => b1' (b1 x)), (fun x => b2' (b2 x)),
         (fun x => b3' (b3 x)), (fun x => b4' (b4 x)), (fun x => l1' (l1 x)),
         (fun x => l2' (l2 x)).
  split; [intros d; now rewrite HG, HF|].
  repeat split; first [now apply sets_or_keeps_comp|now apply patches_comp].
Qed.

Lemma tidy_twice (F : Display -> Display) (d : Display) :
  tidy F -> F (F d) = F d.
Proof.
  intros (a1 & a2 & a3 & a4 & b1 & b2 & b3 & b4 & l1 & l2 & HF
          & (A1 & A2 & A3 & A4) & (B1 & B2 & B3 & B4) & L1 & L2).
  rewrite (HF (F d)), HF. unfold fields.
  cbn [pyve_cpu_label pyve_cpu_bar pyve_ram_label pyve_ram_bar
       pyve_disk_label pyve_disk_bar pyve_iodelay_label pyve_iodelay_bar
       vm_list container_list].
  f_equal; first [now apply sets_or_keeps_twice|now apply patches_twice].
Qed.

Lemma sets_or_keeps_guest_rows (gs : list Guest) :
  sets_or_keeps (guest_rows gs).
Proof.
  right. exists (guest_rows gs {| items := []; selectedRow := None |}).
  reflexivity.
Qed.

Ltac tidy_done :=
  split; [intros ?; reflexivity|];
  repeat split;
  first [ left; intros ?; reflexivity
        | right; eexists; intros ?; reflexivity
        | apply sets_or_keeps_guest_rows
        | apply patches_keep
        | apply patches_setValue
        | apply patches_setFormat ].

Lemma tidy_keep : tidy (fun d => d).
Proof.
  exists keep, keep, keep, keep, keep, keep, keep, keep, keep, keep.
  split; [intros []; reflexivity|].
  repeat split; first [left; intros ?; reflexivity|apply patches_keep].
Qed.

Lemma tidy_cpu_label (t : string) : tidy (Widget.on_cpu_label (fun _ => t)).
Proof.
  exists (fun _ => t), keep, keep, keep, keep, keep, keep, keep, keep, keep.
  tidy_done.
Qed.

Lemma tidy_ram_label (t : string) : tidy (Widget.on_ram_label (fun _ => t)).
Proof.
  exists keep, (fun _ => t), keep, keep, keep, keep, keep, keep, keep, keep.
  tidy_done.
Qed.

Lemma tidy_disk_label (t : string) : tidy (Widget.on_disk_label (fun _ => t)).
Proof.
  exists keep, keep, (fun _ => t), keep, keep, keep, keep, keep, keep, keep.
  tidy_done.
Qed.

Lemma tidy_iodelay_label (t : string) :
  tidy (Widget.on_iodelay_label (fun _ => t)).
Proof.
  exists keep, keep, keep, (fun _ => t), keep, keep, keep, keep, keep, keep.
  tidy_done.
Qed.

Lemma tidy_cpu_bar (v : Z) : tidy (Widget.on_cpu_bar (Widget.setValue v)).
Proof.
  exists keep, keep, keep, keep, (Widget.setValue v), keep, keep, keep, keep,
    keep.
  tidy_done.
Qed.

Lemma tidy_ram_bar (v : Z) : tidy (Widget.on_ram_bar (Widget.setValue v)).
Proof.
  exists keep, keep, keep, keep, keep, (Widget.setValue v), keep, keep, keep,
    keep.
  tidy_done.
Qed.

Lemma tidy_disk_bar (v : Z) : tidy (Widget.on_disk_bar (Widget.setValue v)).
Proof.
  exists keep, keep, keep, keep, keep, keep, (Widget.setValue v), keep, keep,
    keep.
  tidy_done.
Qed.

Lemma tidy_iodelay_bar (v : Z) :
  tidy (Widget.on_iodelay_bar (Widget.setValue v)).
Proof.
  exists keep, keep, keep, keep, keep, keep, keep, (Widget.setValue v), keep,
    keep.
  tidy_done.
Qed.

Lemma tidy_iodelay_format (f : string) :
  tidy (Widget.on_iodelay_bar (Widget.setFormat f)).
Proof.
  exists keep, keep, keep, keep, keep, keep, keep, (Widget.setFormat f), keep,
    keep.
  tidy_done.
Qed.

Lemma tidy_vm_list (gs : list Guest) : tidy (Widget.on_vm_list (guest_rows gs)).
Proof.
  exists keep, keep, keep, keep, keep, keep, keep, keep, (guest_rows gs), keep.
  tidy_done.
Qed.

Lemma tidy_container_list (gs : list Guest) :
  tidy (Widget.on_container_list (guest_rows gs)).
Proof.
  exists keep, keep, keep, keep, keep, keep, keep, keep, keep, (guest_rows gs).
  tidy_done.
Qed.

(** The stretches of the [try] block are widget-wise rewrites, and those of
    the host block leave the two lists alone. *)
Section Stretches.

Variable good : (Display -> Display) -> Prop.
Hypothesis good_keep : good (fun d => d).
Hypothesis good_comp :
  forall F G, good F -> good G -> good (fun d => G (F d)).

Lemma good_wrote (F : Display -> Display) : good F -> good (snd (wrote F)).
Proof. auto. Qed.

Lemma good_stopped (e : exn) : good (snd (stopped e)).
Proof. exact good_keep. Qed.

Lemma good_and_then (a b : Writes) :
  good (snd a) -> good (snd b) -> good (snd (and_then a b)).
Proof.
  intros Ha Hb. unfold and_then. destruct (fst a); [exact Ha|].
  cbn [snd]. now apply good_comp.
Qed.

Lemma good_bar_writes
    (on_bar : (QProgressBar -> QProgressBar) -> Display -> Display) (x : Q) :
  (forall v, good (on_bar (Widget.setValue v))) ->
  good (snd (bar_writes on_bar x)).
Proof.
  intros Hb. unfold bar_writes.
  destruct (int_float x) as [v|e]; [|apply good_stopped].
  destruct (c_int v); [apply good_wrote, Hb|apply good_stopped].
Qed.

Lemma good_usage_writes
    (on_label : (string -> string) -> Display -> Display)
    (on_bar : (QProgressBar -> QProgressBar) -> Display -> Display)
    (title : string) (u : Usage) :
  (forall t, good (on_label (fun _ => t))) ->
  (forall v, good (on_bar (Widget.setValue v))) ->
  good (snd (usage_writes on_label on_bar title u)).
Proof.
  intros Hl Hb. unfold usage_writes.
  destruct (truediv _ _) as [x_used|e]; [|apply good_stopped].
  destruct (truediv _ _) as [x_total|e]; [|apply good_stopped].
  apply good_and_then; [apply good_wrote, Hl|now apply good_bar_writes].
Qed.

Hypothesis good_cpu_label : forall t, good (Widget.on_cpu_label (fun _ => t)).
Hypothesis good_ram_label : forall t, good (Widget.on_ram_label (fun _ => t)).
Hypothesis good_disk_label : forall t, good (Widget.on_disk_label (fun _ => t)).
Hypothesis good_iodelay_label :
  forall t, good (Widget.on_iodelay_label (fun _ => t)).
Hypothesis good_cpu_bar : forall v, good (Widget.on_cpu_bar (Widget.setValue v)).
Hypothesis good_ram_bar : forall v, good (Widget.on_ram_bar (Widget.setValue v)).
Hypothesis good_disk_bar :
  forall v, good (Widget.on_disk_bar (Widget.setValue v)).
Hypothesis good_iodelay_bar :
  forall v, good (Widget.on_iodelay_bar (Widget.setValue v)).
Hypothesis good_iodelay_format :
  forall f, good (Widget.on_iodelay_bar (Widget.setFormat f)).

Lemma good_host_block (st : Status) : good (snd (host_block st)).
Proof.
  unfold host_block. cbv zeta.
  repeat lazymatch goal with
         | |- good (snd (and_then _ _)) => apply good_and_then
         | |- good (snd (wrote ?F)) => change (good F)
         | |- good (snd (bar_writes _ _)) => apply good_bar_writes
         | |- good (snd (usage_writes _ _ _ _)) => apply good_usage_writes
         | |- good (Widget.on_cpu_label _) => apply good_cpu_label
         | |- good (Widget.on_ram_label _) => apply good_ram_label
         | |- good (Widget.on_disk_label _) => apply good_disk_label
         | |- good (Widget.on_iodelay_label _) => apply good_iodelay_label
         | |- good (Widget.on_iodelay_bar (Widget.setFormat _)) =>
             apply good_iodelay_format
         | |- forall _, _ => assumption
         end.
Qed.

End Stretches.

Lemma host_block_tidy (st : Status) : tidy (snd (host_block st)).
Proof.
  apply good_host_block;
    auto using tidy_keep, tidy_comp, tidy_cpu_label, tidy_ram_label,
      tidy_disk_label, tidy_iodelay_label, tidy_cpu_bar, tidy_ram_bar,
      tidy_disk_bar, tidy_iodelay_bar, tidy_iodelay_format.
Qed.

Lemma host_block_host_only (st : Status) : host_only (snd (host_block st)).
Proof.
  apply good_host_block; try (intros ? ?; split; reflexivity).
  - intros d. split; reflexivity.
  - intros F G HF HG d. destruct (HF d) as [<- <-]. apply HG.
Qed.

(** ** Poll tick with a handle *)

Lemma for_each_vm_rows (f : Guest -> QListWidgetItem) (l : list Guest) :
  forall s,
    for_each l (fun g => modify_ui (Widget.on_vm_list (Widget.addItem (f g)))) s
    = (Returned tt,
       {| proxmox := proxmox s;
          connection_error_details := connection_error_details s;
          ui := Widget.on_vm_list
                  (fun w => {| items := items w ++ map f l;
                               selectedRow := selectedRow w |}) (ui s);
          trace := trace s |}).
Proof.
  induction l as [|g l IH]; intros s.
  - destruct s as [p c [? ? ? ? ? ? ? ? [its sel] ?] t].
    unfold ret, Widget.on_vm_list. cbn. now rewrite app_nil_r.
  - cbn [for_each]. unfold bind, modify_ui at 1. rewrite IH.
    unfold Widget.on_vm_list, Widget.addItem. cbn. now rewrite <- app_assoc.
Qed.

Lemma for_each_container_rows (f : Guest -> QListWidgetItem) (l : list Guest) :
  forall s,
    for_each l
      (fun g => modify_ui (Widget.on_container_list (Widget.addItem (f g)))) s
    = (Returned tt,
       {| proxmox := proxmox s;
          connection_error_details := connection_error_details s;
          ui := Widget.on_container_list
                  (fun w => {| items := items w ++ map f l;
                               selectedRow := selectedRow w |}) (ui s);
          trace := trace s |}).
Proof.
  induction l as [|g l IH]; intros s.
  - destruct s as [p c [? ? ? ? ? ? ? ? ? [its sel]] t].
    unfold ret, Widget.on_container_list. cbn. now rewrite app_nil_r.
  - cbn [for_each]. unfold bind, modify_ui at 1. rewrite IH.
    unfold Widget.on_container_list, Widget.addItem. cbn.
    now rewrite <- app_assoc.
Qed.

Lemma on_vm_list_fuse (f g : QListWidget -> QListWidget) (d : Display) :
  Widget.on_vm_list f (Widget.on_vm_list g d)
  = Widget.on_vm_list (fun w => f (g w)) d.
Proof. reflexivity. Qed.

Lemma on_container_list_fuse (f g : QListWidget -> QListWidget) (d : Display) :
  Widget.on_container_list f (Widget.on_container_list g d)
  = Widget.on_container_list (fun w => f (g w)) d.
Proof. reflexivity. Qed.

(** One step of the [try] block, on both readings. *)
Ltac tick_open :=
  cbv beta iota zeta
    delta [and_then wrote stopped bar_writes usage_writes fst snd
           proxmox connection_error_details ui trace].

(** The block has stopped, or is through. *)
Ltac tick_leaf :=
  repeat match goal with e : exn |- _ => destruct e end;
  cbv beta iota zeta
    delta [and_then wrote stopped bar_writes usage_writes fst snd map
           poll_error_line overflowed
           proxmox connection_error_details ui trace];
  rewrite <- ?app_assoc;
  reflexivity.

(** With a handle, [update_stats] is [polled]: it returns, and what it
    leaves is what [poll] says. *)
Lemma tick_run (env : Env) (s : App) (p : ProxmoxAPI) :
  proxmox s = Some p -> update_stats env s = (Returned tt, polled env s).
Proof.
  intros Hpx. destruct s as [px ced d t]. cbn in Hpx. subst px.
  unfold polled, poll.
  unfold update_stats, gets, try_except, request, setText, setValue,
    lift, logger_error, emit, modify_ui, ret, raise, bind.
  tick_open.
  destruct (node_status_get env) as [st|e]; [|tick_leaf].
  unfold host_block. tick_open.
  destruct (int_float (Num.fmul (Num.fl (get (cpu st) 0%Q)) 100%Q)) as [v1|e];
    tick_open; [|tick_leaf].
  destruct (c_int v1); tick_open; [|tick_leaf].
  destruct (truediv (get (used (get (memory st) _)) _) _) as [ru|e];
    tick_open; [|tick_leaf].
  destruct (truediv (get (total (get (memory st) _)) _) _) as [rt|e];
    tick_open; [|tick_leaf].
  destruct (int_float (if Num.Qpos_bool rt then _ else _)) as [v2|e];
    tick_open; [|tick_leaf].
  destruct (c_int v2); tick_open; [|tick_leaf].
  destruct (truediv (get (used (get (rootfs st) _)) _) _) as [du|e];
    tick_open; [|tick_leaf].
  destruct (truediv (get (total (get (rootfs st) _)) _) _) as [dt|e];
    tick_open; [|tick_leaf].
  destruct (int_float (if Num.Qpos_bool dt then _ else _)) as [v3|e];
    tick_open; [|tick_leaf].
  destruct (c_int v3); tick_open; [|tick_leaf].
  destruct (int_float (Num.fmul (Num.fl (get (wait st) 0%Q)) 100%Q)) as [v4|e];
    tick_open; [|tick_leaf].
  destruct (c_int v4); tick_open; [|tick_leaf].
  destruct (node_qemu_get env) as [vms|e]; tick_open; [|tick_leaf].
  pose proof (for_each_vm_rows guest_item (sorted vmid_key vms)) as E.
  unfold modify_ui in E. rewrite E. clear E. tick_open.
  rewrite on_vm_list_fuse.
  destruct (node_lxc_get env) as [cts|e]; tick_open; [|tick_leaf].
  pose proof (for_each_container_rows guest_item (sorted vmid_key cts)) as E.
  unfold modify_ui in E. rewrite E. clear E. tick_open.
  rewrite on_container_list_fuse.
  tick_leaf.
Qed.

Lemma tick_ui (env : Env) (s : App) (p : ProxmoxAPI) :
  proxmox s = Some p ->
  ui (snd (update_stats env s)) = snd (snd (poll env)) (ui s).
Proof. intros Hpx. now rewrite (tick_run env s p Hpx). Qed.

Lemma tick_events (env : Env) (s : App) (p : ProxmoxAPI) :
  proxmox s = Some p ->
  new_events s (snd (update_stats env s))
  = (map Api (fst (poll env))
     ++ match fst (snd (poll env)) with
        | Some e => [Logged ERROR (poll_error_line e)]
        | None => []
        end)%list.
Proof.
  intros Hpx. rewrite (tick_run env s p Hpx). now apply new_events_app.
Qed.

(** The five ways through the [try] block: the status fetch raises, the host
    block stops, the VM listing raises, the container listing raises, or the
    block is through.  The equations of the answers stay in the context. *)
Ltac poll_paths env :=
  unfold poll;
  destruct (node_status_get env) as [?st|?e] eqn:?Hst;
  [ match goal with
    | _ : node_status_get env = Returned ?st |- _ =>
        unfold and_then;
        destruct (fst (host_block st)) as [?e|] eqn:?Hhost;
        [ rewrite ?Hhost
        | destruct (node_qemu_get env) as [?vms|?e] eqn:?Hqemu;
          [ destruct (node_lxc_get env) as [?cts|?e] eqn:?Hlxc | ] ]
    end
  | ];
  unfold wrote, stopped in *; cbn [fst snd] in *;
  try match goal with
      | H : fst (host_block _) = _ |- _ => rewrite ?H
      end.

Lemma host_block_lists (st : Status) (d : Display) :
  vm_list (snd (host_block st) d) = vm_list d
  /\ container_list (snd (host_block st) d) = container_list d.
Proof. apply host_block_host_only. Qed.

Lemma poll_tidy (env : Env) : tidy (snd (snd (poll env))).
Proof.
  poll_paths env.
  - apply host_block_tidy.
  - apply (tidy_comp _ (Widget.on_container_list (guest_rows cts)));
      [|apply tidy_container_list].
    apply (tidy_comp _ (Widget.on_vm_list (guest_rows vms)));
      [|apply tidy_vm_list].
    apply host_block_tidy.
  - apply (tidy_comp _ (Widget.on_vm_list (guest_rows vms)));
      [|apply tidy_vm_list].
    apply host_block_tidy.
  - apply (tidy_comp _ (fun d => d)); [|apply tidy_keep]. apply host_block_tidy.
  - apply tidy_keep.
Qed.

(** The events of a tick are its requests, then at most one log line. *)
Lemma request_sent (r : Request) (reqs : list Request) (log : list Event) :
  In (Api r) (map Api reqs ++ log)%list ->
  (forall e, In e log -> is_api e = false) ->
  In r reqs.
Proof.
  intros Hin Hlog. apply in_app_or in Hin as [Hin|Hin].
  - apply in_map_iff in Hin as (r' & [= ->] & Hr). exact Hr.
  - specialize (Hlog _ Hin). discriminate Hlog.
Qed.

Lemma tick_sent (env : Env) (s : App) (p : ProxmoxAPI) (r : Request) :
  proxmox s = Some p ->
  In (Api r) (new_events s (snd (update_stats env s))) ->
  In r (fst (poll env)).
Proof.
  intros Hpx Hin. rewrite (tick_events env s p Hpx) in Hin.
  apply (request_sent _ _ _ Hin).
  intros e He. destruct (fst (snd (poll env))); [|destruct He].
  destruct He as [<-|[]]. reflexivity.
Qed.

(** What a list shows after a tick that sent the request for its listing
    and got an answer. *)
Lemma tick_list (env : Env) (s : App) (p : ProxmoxAPI) (r : Resource)
    (gs : list Guest) :
  proxmox s = Some p ->
  In (Api (list_request env r)) (new_events s (snd (update_stats env s))) ->
  list_answer env r = Returned gs ->
  list_of r (ui (snd (update_stats env s)))
  = {| items := map guest_item (sorted vmid_key gs); selectedRow := None |}.
Proof.
  intros Hpx Hin Hans. apply (tick_sent env s p _ Hpx) in Hin.
  rewrite (tick_ui env s p Hpx). revert Hin.
  poll_paths env; destruct r; cbn [list_request list_answer] in *; intros Hin;
    repeat match goal with
           | H : In _ (_ :: _) |- _ => destruct H as [H|H]; [discriminate H|]
           | H : In _ [] |- _ => destruct H
           end;
    try congruence;
    rewrite Hans in *;
    repeat match goal with
           | H : Returned _ = Returned _ |- _ => injection H as <-
           end;
    reflexivity.
Qed.



Example rows_of_the_scenario :
  items (vm_list (ui (snd (update_stats (server (status_of load) [web; db] [])
                             online))))
  = [ {| text := "ID: 55 | db | stopped";
         background := Some "#F44336"; foreground := Some "white" |};
      {| text := "ID: 101 | web | running";
         background := Some "#4CAF50"; foreground := Some "black" |} ].
Proof. vm_compute. reflexivity. Qed.

(** C2, as the code has it.  A tick in which a fetch raises returns normally
    and shows no message box; after the requests made so far, its only effect
    outside the window is one ERROR log line with the failure.  What is on
    display stays as it was from the failing fetch onward: everything when the
    host status fetch fails, both guest lists when the request for the VM
    listing is made and fails, the container list when the request for the
    container listing is made and fails.  (A listing is requested only when
    the host block before it has run through.) *)
Theorem failed_fetch_tick (env : Env) (s : App) (p : ProxmoxAPI) :
  proxmox s = Some p ->
  fst (update_stats env s) = Returned tt
  /\ existsb is_box (new_events s (snd (update_stats env s))) = false
  /\ (forall e,
        node_status_get env = Raised e ->
        ui (snd (update_stats env s)) = ui s
        /\ new_events s (snd (update_stats env s))
           = [Api (GET_status (PROXMOX_NODE env));
              Logged ERROR (poll_error_line e)])
  /\ (forall e,
        In (Api (GET_qemu (PROXMOX_NODE env)))
          (new_events s (snd (update_stats env s))) ->
        node_qemu_get env = Raised e ->
        vm_list (ui (snd (update_stats env s))) = vm_list (ui s)
        /\ container_list (ui (snd (update_stats env s))) = container_list (ui s)
        /\ new_events s (snd (update_stats env s))
           = [Api (GET_status (PROXMOX_NODE env));
              Api (GET_qemu (PROXMOX_NODE env));
              Logged ERROR (poll_error_line e)])
  /\ (forall e,
        In (Api (GET_lxc (PROXMOX_NODE env)))
          (new_events s (snd (update_stats env s))) ->
        node_lxc_get env = Raised e ->
        container_list (ui (snd (update_stats env s))) = container_list (ui s)
        /\ new_events s (snd (update_stats env s))
           = [Api (GET_status (PROXMOX_NODE env));
              Api (GET_qemu (PROXMOX_NODE env));
              Api (GET_lxc (PROXMOX_NODE env));
              Logged ERROR (poll_error_line e)]).
Proof.
  intros Hpx.
  rewrite (tick_events env s p Hpx), (tick_ui env s p Hpx),
    (tick_run env s p Hpx).
  split; [reflexivity|].
  poll_paths env; cbn [map app existsb is_box orb];
    (split; [try destruct e; reflexivity|]);
    repeat match goal with |- _ /\ _ => split end;
    intros;
    repeat match goal with
           | H : In _ (_ :: _) |- _ => destruct H as [H|H]; [discriminate H|]
           | H : In _ [] |- _ => destruct H
           | H : Raised _ = Raised _ |- _ => injection H as <-
           end;
    try discriminate;
    repeat match goal with |- _ /\ _ => split end;
    try reflexivity;
    try apply host_block_lists.
Qed.

Lemma failed_fetch_tick_witness :
  vm_list (ui (snd (update_stats (qemu_down (status_of load)) online)))
  = vm_list (ui online)
  /\ container_list (ui (snd (update_stats (qemu_down (status_of load)) online)))
     = container_list (ui online)
  /\ new_events online (snd (update_stats (qemu_down (status_of load)) online))
     = [Api (GET_status "pve"); Api (GET_qemu "pve");
        Logged ERROR "Proxmox API error: 500 Internal Server Error"].
Proof.
  apply (proj1 (proj2 (proj2 (proj2
           (failed_fetch_tick (qemu_down (status_of load)) online
              {| session := 0 |} eq_refl))))
           (ResourceException "500 Internal Server Error")).
  - vm_compute. right. left. reflexivity.
  - reflexivity.
Defined.

(** C2, as stated, fails: the host status fetch returns, the VM listing
    raises, and the CPU gauge, at 0 before the tick, shows 68 after it. *)
Lemma failed_fetch_changes_display :
  node_qemu_get (qemu_down (status_of load))
  = Raised (ResourceException "500 Internal Server Error")
  /\ value (pyve_cpu_bar (ui online)) = 0
  /\ value (pyve_cpu_bar (ui (snd (update_stats (qemu_down (status_of load))
                                     online)))) = 68
  /\ ui (snd (update_stats (qemu_down (status_of load)) online)) <> ui online.
Proof.
  repeat split.
  intros H.
  apply (f_equal (fun d => value (pyve_cpu_bar d))) in H.
  vm_compute in H. discriminate H.
Qed.

(** ** The gauges of a valid snapshot *)







Lemma gauge_bar_vm_list (g : Gauge) (f : QListWidget -> QListWidget)
    (d : Display) :
  gauge_bar g (Widget.on_vm_list f d) = gauge_bar g d.
Proof. destruct g; reflexivity. Qed.

Lemma gauge_bar_container_list (g : Gauge) (f : QListWidget -> QListWidget)
    (d : Display) :
  gauge_bar g (Widget.on_container_list f d) = gauge_bar g d.
Proof. destruct g; reflexivity. Qed.

(** The listings that follow the host block leave the gauges alone. *)
Lemma poll_gauges (env : Env) (st : Status) (g : Gauge) (d : Display) :
  node_status_get env = Returned st ->
  gauge_bar g (snd (snd (poll env)) d) = gauge_bar g (snd (host_block st) d).
Proof.
  intros H. revert H.
  poll_paths env; intros [= <-];
    now rewrite ?gauge_bar_container_list, ?gauge_bar_vm_list.
Qed.





(** Nor is it the exact percentage truncated: a CPU fraction of 0.29 is a
    double a little below 29/100, the product with 100 falls short of 29,
    and the gauge shows 28. *)
Example gauge_of_29_percent :
  let h := {| cpuFraction := 29 # 100; cpuCores := Some 4; cpuThreads := Some 8;
              memoryUsedBytes := 29000000000;
              memoryTotalBytes := 100000000000;
              diskUsedBytes := 0; diskTotalBytes := 1;
              ioWaitFraction := 0 |} in
  map (fun g => value (gauge_bar g
                         (ui (snd (update_stats (server (status_of h) [] [])
                                     online)))))
    [CPU; RAM]
  = [28; 28]
  /\ Num.py_int (fraction CPU h * 100) = 29.
Proof. vm_compute. split; reflexivity. Qed.

(** [0.0015 * 100] is the double just below 0.15: it prints as 0.1. *)
Example io_delay_format :
  format (pyve_iodelay_bar
            (ui (snd (update_stats
                        (server {| cpu := None; cpuinfo := None; memory := None;
                                   rootfs := None; wait := Some (15 # 10000) |}
                           [] [])
                        online))))
  = "0.1%".
Proof. vm_compute. reflexivity. Qed.

Example gauges_of_load :
  map (fun g => value (gauge_bar g
                         (ui (snd (update_stats (server (status_of load) [] [])
                                     online)))))
    [CPU; RAM; Disk; IOWait]
  = [68; 37; 25; 3]
  /\ format (pyve_iodelay_bar
               (ui (snd (update_stats (server (status_of load) [] []) online))))
     = "3.1%"
  /\ pyve_ram_label (ui (snd (update_stats (server (status_of load) [] [])
                                online)))
     = "RAM (3.0/8.0 GiB)".
Proof. vm_compute. repeat split; reflexivity. Qed.

(** A percentage too large for a C [int] stops the block at the CPU bar: the
    label is written, the bar and everything after it are not, no listing is
    requested, and the log has the binding's message. *)
Example overflowing_percentage :
  let st := {| cpu := Some (inject_Z (10 ^ 18)); cpuinfo := None;
               memory := Some {| used := Some 5; total := Some 0 |};
               rootfs := None; wait := None |} in
  let s' := snd (update_stats (server st [web] []) online) in
  pyve_cpu_label (ui s') = "CPU (? cores, ? threads)"
  /\ pyve_ram_label (ui s') = pyve_ram_label (ui online)
  /\ vm_list (ui s') = vm_list (ui online)
  /\ new_events online s'
     = [Api (GET_status "pve");
        Logged ERROR
          "Unexpected error in update_stats: argument 1 overflowed: value must be in the range -2147483648 to 2147483647"].
Proof. vm_compute. repeat split; reflexivity. Qed.

(** ** Launch *)

Lemma startup_true_has_handle (env : Env) (s : App) :
  fst (initialize_proxmox_connection env s) = Returned true ->
  proxmox (snd (initialize_proxmox_connection env s)) <> None.
Proof.
  unfold initialize_proxmox_connection, max_retries.
  cbn [seq connect_loop].
  unfold bind, try_except, connect_attempt, connect_failed, request, bind,
    logger_info, logger_error, emit, set_proxmox, set_connection_error_details,
    ret, raise.
  destruct (api_connect env 0%nat) as [h0|e0];
    [destruct (version_get env 0%nat) as [[]|v0]|];
    cbn;
    try (destruct (api_connect env 1%nat) as [h1|e1];
         [destruct (version_get env 1%nat) as [[]|v1]|];
         cbn;
         try (destruct (api_connect env 2%nat) as [h2|e2];
              [destruct (version_get env 2%nat) as [[]|v2]|];
              cbn));
    intros H; try discriminate H; discriminate.
Qed.

Lemma MonitorApp_keeps_handle : keeps proxmox MonitorApp.
Proof.
  unfold MonitorApp, set_error_state, setup_update_timer, setText. callback.
Qed.

Lemma returns_MonitorApp : returns MonitorApp.
Proof.
  unfold MonitorApp, set_error_state, setup_update_timer, setText. callback.
Qed.

(** X17.  The event loop is only ever entered with a handle: when every startup
    attempt fails (and the retry too, or the operator declines), the process
    exits with status 1 before a window exists. *)
Lemma running_has_handle (env env_retry : Env) (retry_yes : bool) (s : App) :
  fst (main env env_retry retry_yes s) = Returned Running ->
  proxmox (snd (main env env_retry retry_yes s)) <> None.
Proof.
  unfold main, bind, ret, gets, emit. cbv beta.
  pose proof (startup_true_has_handle env s) as H1.
  destruct (initialize_proxmox_connection env s) as [[[|]|e] s1];
    cbn [fst snd] in *.
  - pose proof (MonitorApp_keeps_handle s1) as Hk.
    destruct (MonitorApp s1) as [[[]|e] s2]; cbn [fst snd] in *;
      [intros _; rewrite Hk; auto|discriminate].
  - destruct retry_yes; [|discriminate].
    match goal with
    | |- context [initialize_proxmox_connection env_retry ?s2] =>
        pose proof (startup_true_has_handle env_retry s2) as H2;
        destruct (initialize_proxmox_connection env_retry s2)
          as [[[|]|e] s3]
    end; cbn [fst snd] in *; try discriminate.
    pose proof (MonitorApp_keeps_handle s3) as Hk.
    destruct (MonitorApp s3) as [[[]|e] s4]; cbn [fst snd] in *;
      [intros _; rewrite Hk; auto|discriminate].
  - discriminate.
Qed.

Example launch_server_down :
  fst (main down down true blank) = Returned (Exited 1).
Proof. reflexivity. Qed.

(** * Beyond the claims *)

(** ** The tab bar *)

Section TabBarFacts.

Import TabBar.

Lemma update_scroll_position_geometry (t : ScrollableTabBar) :
  tab_widths (update_scroll_position t) = tab_widths t
  /\ width (update_scroll_position t) = width t.
Proof.
  unfold update_scroll_position.
  destruct (sum (tab_widths t) <=? width t); split; reflexivity.
Qed.

Lemma deliver_geometry (m : Mouse) (t : ScrollableTabBar) :
  tab_widths (deliver m t) = tab_widths t /\ width (deliver m t) = width t.
Proof.
  destruct m as [ev|ev|ev]; cbn [deliver].
  - unfold mousePressEvent. destruct (button ev); split; reflexivity.
  - unfold mouseMoveEvent. destruct (_drag_start_pos t); [|split; reflexivity].
    match goal with
    | |- context [update_scroll_position ?u] =>
        apply (update_scroll_position_geometry u)
    end.
  - split; reflexivity.
Qed.

Lemma update_scroll_position_range (t : ScrollableTabBar) :
  0 <= _scroll_offset (update_scroll_position t) <= max_scroll t.
Proof.
  unfold update_scroll_position, max_scroll.
  destruct (Z.leb_spec (sum (tab_widths t)) (width t));
    cbn [_scroll_offset]; lia.
Qed.

Lemma deliver_range (m : Mouse) (t : ScrollableTabBar) :
  0 <= _scroll_offset t <= max_scroll t ->
  0 <= _scroll_offset (deliver m t) <= max_scroll (deliver m t).
Proof.
  intros Hin.
  assert (Hmax : max_scroll (deliver m t) = max_scroll t).
  { unfold max_scroll. now destruct (deliver_geometry m t) as [-> ->]. }
  rewrite Hmax.
  destruct m as [ev|ev|ev]; cbn [deliver].
  - unfold mousePressEvent. now destruct (button ev).
  - unfold mouseMoveEvent. destruct (_drag_start_pos t); [|exact Hin].
    match goal with
    | |- context [update_scroll_position ?u] =>
        apply (update_scroll_position_range u)
    end.
  - exact Hin.
Qed.

(** X1.  Whatever mouse events a tab bar receives after it is created, its
    scroll offset stays between 0 and the part of the tabs that does not fit
    (total tab width minus the bar's width, 0 when they fit). *)
Theorem scroll_offset_in_range (widths : list Z) (w : Z) (ms : list Mouse) :
  0 <= _scroll_offset (run ms (new widths w)) <= Z.max 0 (sum widths - w).
Proof.
  assert (Hgen : forall t,
             0 <= _scroll_offset t <= max_scroll t ->
             0 <= _scroll_offset (run ms t) <= max_scroll t).
  { induction ms as [|m ms IH]; intros t Hin; cbn [run]; [exact Hin|].
    assert (Hmax : max_scroll (deliver m t) = max_scroll t).
    { unfold max_scroll. now destruct (deliver_geometry m t) as [-> ->]. }
    rewrite <- Hmax. apply IH. now apply deliver_range. }
  apply (Hgen (new widths w)). unfold max_scroll. cbn. lia.
Qed.

(** X2.  While no drag is in progress, events other than a press of the left
    button change nothing: moving the mouse, releasing a button or pressing
    another button never scrolls the bar. *)
Theorem no_drag_no_scroll (t : ScrollableTabBar) (ms : list Mouse) :
  _drag_start_pos t = None ->
  forallb (fun m => negb (starts_drag m)) ms = true ->
  run ms t = t.
Proof.
  intros Hdrag Hms. induction ms as [|m ms IH]; cbn [run]; [reflexivity|].
  cbn [forallb] in Hms. apply andb_prop in Hms as [Hm Hms].
  assert (Hstep : deliver m t = t).
  { destruct m as [ev|ev|ev]; cbn [deliver].
    - unfold mousePressEvent. cbn in Hm. now destruct (button ev).
    - unfold mouseMoveEvent. now rewrite Hdrag.
    - unfold mouseReleaseEvent. destruct t; cbn in *. now subst. }
  rewrite Hstep. now apply IH.
Qed.

Lemma no_drag_no_scroll_witness :
  run [Move (at_x 40); Release (at_x 40);
       Press {| button := RightButton; pos := {| x := 7; y := 0 |} |};
       Move (at_x (-300))]
    (new [120; 120; 120; 120] 400)
  = new [120; 120; 120; 120] 400.
Proof.
  apply (no_drag_no_scroll (new [120; 120; 120; 120] 400)); reflexivity.
Defined.

(** X3.  During a drag the bar follows the pointer exactly as long as the
    offset stays in range, so dragging to a point and back to the column where
    the drag was anchored restores the offset. *)
Theorem drag_there_and_back (t : ScrollableTabBar) (p0 : QPoint)
    (there back : QMouseEvent) :
  _drag_start_pos t = Some p0 ->
  x (pos back) = x p0 ->
  0 <= _scroll_offset t <= max_scroll t ->
  0 <= _scroll_offset t - (x (pos there) - x p0) <= max_scroll t ->
  _scroll_offset (mouseMoveEvent there t)
  = _scroll_offset t - (x (pos there) - x p0)
  /\ _scroll_offset (mouseMoveEvent back (mouseMoveEvent there t))
     = _scroll_offset t.
Proof.
  intros Hdrag Hback Hin Hmid.
  assert (Hthere :
            mouseMoveEvent there t
            = {| _drag_start_pos := Some (pos there);
                 _scroll_offset := _scroll_offset t - (x (pos there) - x p0);
                 tab_widths := tab_widths t; width := width t |}).
  { unfold mouseMoveEvent. rewrite Hdrag.
    unfold update_scroll_position, max_scroll in *.
    cbn [tab_widths width _scroll_offset _drag_start_pos].
    destruct (Z.leb_spec (sum (tab_widths t)) (width t)); f_equal; lia. }
  rewrite Hthere. split; [reflexivity|].
  unfold mouseMoveEvent, update_scroll_position, max_scroll in *.
  cbn [tab_widths width _scroll_offset _drag_start_pos].
  rewrite Hback.
  destruct (Z.leb_spec (sum (tab_widths t)) (width t));
    cbn [tab_widths width _scroll_offset _drag_start_pos]; lia.
Qed.

Lemma drag_there_and_back_witness :
  _scroll_offset
    (mouseMoveEvent (at_x 70)
       (mousePressEvent (at_x 100) (new [120; 120; 120; 120] 400)))
  = 30
  /\ _scroll_offset
       (mouseMoveEvent (at_x 100)
          (mouseMoveEvent (at_x 70)
             (mousePressEvent (at_x 100) (new [120; 120; 120; 120] 400))))
     = 0.
Proof.
  apply (drag_there_and_back
           (mousePressEvent (at_x 100) (new [120; 120; 120; 120] 400))
           {| x := 100; y := 0 |} (at_x 70) (at_x 100));
    [reflexivity|reflexivity|cbn; lia|cbn; lia].
Defined.

End TabBarFacts.

(** ** Startup and launch *)

(** Splits the startup sequence by what each of the three attempts meets. *)
Ltac startup_cases env :=
  unfold initialize_proxmox_connection, max_retries;
  cbn [seq connect_loop];
  unfold bind, try_except, connect_attempt, connect_failed, request, bind,
    logger_info, logger_error, emit, set_proxmox, set_connection_error_details,
    ret, raise;
  destruct (api_connect env 0%nat) as [?h|?e] eqn:?Hc0;
    [destruct (version_get env 0%nat) as [[]|?e] eqn:?Hv0|];
    cbn;
    try (destruct (api_connect env 1%nat) as [?h|?e] eqn:?Hc1;
         [destruct (version_get env 1%nat) as [[]|?e] eqn:?Hv1|];
         cbn;
         try (destruct (api_connect env 2%nat) as [?h|?e] eqn:?Hc2;
              [destruct (version_get env 2%nat) as [[]|?e] eqn:?Hv2|];
              cbn)).

Lemma startup_result (env : Env) (s : App) :
  fst (initialize_proxmox_connection env s) = Returned (any_attempt_ok env).
Proof.
  unfold any_attempt_ok, attempt_ok, session_opened.
  startup_cases env; cbn; rewrite ?Hc0, ?Hc1, ?Hc2, ?Hv0, ?Hv1, ?Hv2;
    reflexivity.
Qed.

Lemma startup_sessions (env : Env) (s : App) :
  filter is_new_session (trace (snd (initialize_proxmox_connection env s)))
  = (filter is_new_session (trace s)
     ++ repeat (Api NewSession) (attempts_made env))%list.
Proof.
  unfold attempts_made, attempt_ok, session_opened.
  startup_cases env; cbn; rewrite ?Hc0, ?Hc1, ?Hc2, ?Hv0, ?Hv1, ?Hv2; cbn;
    rewrite ?filter_app; cbn; rewrite <- ?app_assoc; reflexivity.
Qed.

Lemma startup_keeps_questions (env : Env) :
  keeps (fun s => filter is_question (trace s))
    (initialize_proxmox_connection env).
Proof.
  unfold initialize_proxmox_connection, max_retries. cbn [seq connect_loop].
  unfold connect_attempt, connect_failed, logger_info, logger_error,
    set_proxmox, set_connection_error_details.
  callback.
Qed.

(** X4.  After the startup sequence the global [proxmox] holds the handle of
    the latest attempt that opened a session, whether or not the version
    query on it passed (and what it held before when no attempt opened one):
    a sequence that reports failure can still leave a handle behind. *)
Theorem startup_leaves_latest_session (env : Env) (s : App) :
  proxmox (snd (initialize_proxmox_connection env s))
  = latest_session env (seq 0 (attempts_made env)) (proxmox s).
Proof.
  unfold latest_session, attempts_made, attempt_ok, session_opened.
  startup_cases env; cbn; rewrite ?Hc0, ?Hc1, ?Hc2, ?Hv0, ?Hv1, ?Hv2; cbn;
    rewrite ?Hc0, ?Hc1, ?Hc2; reflexivity.
Qed.

(** X5.  When the startup sequence reports failure, the error it leaves in
    [connection_error_details] is the one of the third attempt, labelled
    "attempt 3/3"; the errors of the first two attempts are only logged. *)
Theorem startup_failure_details (env : Env) (s : App) :
  fst (initialize_proxmox_connection env s) = Returned false ->
  exists e,
    attempt_error env 2 = Some e
    /\ connection_error_details (snd (initialize_proxmox_connection env s))
       = Some ("Proxmox connection error (attempt 3/3): " ++ str_exn e).
Proof.
  unfold attempt_error.
  startup_cases env; intros H; try discriminate H;
    rewrite ?Hc2, ?Hv2; eexists; split; reflexivity.
Qed.

Lemma startup_failure_details_witness :
  connection_error_details (snd (initialize_proxmox_connection down blank))
  = Some "Proxmox connection error (attempt 3/3): connection refused".
Proof.
  destruct (startup_failure_details down blank eq_refl) as (e & He & Hd).
  injection He as <-. exact Hd.
Defined.

(** X6.  The launch reaches the event loop exactly when the startup sequence
    succeeds, or fails and the operator answers Yes and the second sequence
    succeeds; in every other case the process exits with status 1.  No
    exception escapes. *)
Theorem launch_outcome (env env_retry : Env) (retry_yes : bool) (s : App) :
  fst (main env env_retry retry_yes s)
  = Returned
      (if any_attempt_ok env || (retry_yes && any_attempt_ok env_retry)
       then Running else Exited 1).
Proof.
  unfold main, bind, ret, gets, emit. cbv beta.
  pose proof (startup_result env s) as H1.
  destruct (initialize_proxmox_connection env s) as [[ok|e] s1];
    cbn [fst snd] in *; [|discriminate].
  injection H1 as ->.
  destruct (any_attempt_ok env); cbn [orb].
  - destruct (returns_MonitorApp s1) as [[] Hm].
    destruct (MonitorApp s1) as [[[]|e] s2]; cbn [fst] in *;
      [reflexivity|discriminate].
  - destruct retry_yes; cbn [andb]; [|reflexivity].
    match goal with
    | |- context [initialize_proxmox_connection env_retry ?s2] =>
        pose proof (startup_result env_retry s2) as H2;
        destruct (initialize_proxmox_connection env_retry s2)
          as [[ok|e] s3]
    end; cbn [fst snd] in *; [|discriminate].
    injection H2 as ->.
    destruct (any_attempt_ok env_retry); [|reflexivity].
    destruct (returns_MonitorApp s3) as [[] Hm].
    destruct (MonitorApp s3) as [[[]|e] s4]; cbn [fst] in *;
      [reflexivity|discriminate].
Qed.

Example failure_with_a_handle :
  fst (initialize_proxmox_connection unvalidated blank) = Returned false
  /\ proxmox (snd (initialize_proxmox_connection unvalidated blank))
     = Some {| session := 2 |}.
Proof. split; reflexivity. Qed.

Lemma MonitorApp_keeps_sessions :
  keeps (fun s => filter is_new_session (trace s)) MonitorApp.
Proof.
  unfold MonitorApp, set_error_state, setup_update_timer, setText. callback.
Qed.

Lemma MonitorApp_keeps_questions :
  keeps (fun s => filter is_question (trace s)) MonitorApp.
Proof.
  unfold MonitorApp, set_error_state, setup_update_timer, setText. callback.
Qed.

(** X7.  A launch opens sessions only in its startup sequences: the attempts
    of the first sequence and, only when that one failed and the operator
    answered Yes, those of the second, so at most six.  The retry question is
    asked once when the first sequence fails and never otherwise. *)
Theorem launch_attempts (env env_retry : Env) (retry_yes : bool) (s : App) :
  filter is_new_session (trace (snd (main env env_retry retry_yes s)))
  = (filter is_new_session (trace s)
     ++ repeat (Api NewSession)
          (attempts_made env
           + (if negb (any_attempt_ok env) && retry_yes
              then attempts_made env_retry else 0)))%list
  /\ (attempts_made env
      + (if negb (any_attempt_ok env) && retry_yes
         then attempts_made env_retry else 0) <= 6)%nat
  /\ List.length
       (filter is_question (trace (snd (main env env_retry retry_yes s))))
     = (List.length (filter is_question (trace s))
        + (if any_attempt_ok env then 0 else 1))%nat.
Proof.
  assert (Hbound : forall e, (attempts_made e <= 3)%nat).
  { intros e. unfold attempts_made, max_retries. cbn [seq find].
    repeat match goal with
           | |- context [if ?c then _ else _] => destruct c
           end; lia. }
  split; [|split].
  2:{ pose proof (Hbound env). pose proof (Hbound env_retry).
      destruct (negb (any_attempt_ok env) && retry_yes); lia. }
  all: unfold main, bind, ret, gets, emit; cbv beta;
    pose proof (startup_result env s) as H1;
    pose proof (startup_sessions env s) as Hs1;
    pose proof (startup_keeps_questions env s) as Hq1; cbv beta in Hq1;
    destruct (initialize_proxmox_connection env s) as [[ok|e] s1];
    cbn [fst snd] in *; [|discriminate];
    injection H1 as ->;
    destruct (any_attempt_ok env); cbn [negb andb].
  - pose proof (MonitorApp_keeps_sessions s1) as Hk. cbv beta in Hk.
    destruct (MonitorApp s1) as [[[]|e] s2]; cbn [fst snd] in *;
      rewrite Hk, Hs1, Nat.add_0_r; reflexivity.
  - destruct retry_yes; cbn [snd trace].
    + match goal with
      | |- context [initialize_proxmox_connection env_retry ?s2] =>
          pose proof (startup_result env_retry s2) as H2;
          pose proof (startup_sessions env_retry s2) as Hs2;
          destruct (initialize_proxmox_connection env_retry s2)
            as [[ok|e] s3]
      end; cbn [fst snd trace] in *; [|discriminate].
      injection H2 as ->.
      rewrite filter_app in Hs2. cbn [filter is_new_session] in Hs2.
      rewrite app_nil_r in Hs2.
      destruct (any_attempt_ok env_retry).
      * pose proof (MonitorApp_keeps_sessions s3) as Hk. cbv beta in Hk.
        destruct (MonitorApp s3) as [[[]|e] s4]; cbn [fst snd] in *;
          rewrite Hk, Hs2, Hs1, repeat_app, app_assoc; reflexivity.
      * cbn [snd]. rewrite Hs2, Hs1, repeat_app, app_assoc. reflexivity.
    + rewrite filter_app. cbn. rewrite Hs1, Nat.add_0_r, app_nil_r.
      reflexivity.
  - pose proof (MonitorApp_keeps_questions s1) as Hk. cbv beta in Hk.
    destruct (MonitorApp s1) as [[[]|e] s2]; cbn [fst snd] in *;
      rewrite Hk, Hq1; lia.
  - destruct retry_yes; cbn [snd trace].
    + match goal with
      | |- context [initialize_proxmox_connection env_retry ?s2] =>
          pose proof (startup_result env_retry s2) as H2;
          pose proof (startup_keeps_questions env_retry s2) as Hq2;
          cbv beta in Hq2;
          destruct (initialize_proxmox_connection env_retry s2)
            as [[ok|e] s3]
      end; cbn [fst snd trace] in *; [|discriminate].
      injection H2 as ->.
      rewrite filter_app in Hq2. cbn [filter is_question] in Hq2.
      destruct (any_attempt_ok env_retry).
      * pose proof (MonitorApp_keeps_questions s3) as Hk. cbv beta in Hk.
        destruct (MonitorApp s3) as [[[]|e] s4]; cbn [fst snd] in *;
          rewrite Hk, Hq2, Hq1, length_app; reflexivity.
      * cbn [snd]. rewrite Hq2, Hq1, length_app. reflexivity.
    + rewrite filter_app, Hq1, length_app. reflexivity.
Qed.

Lemma running_has_handle_witness :
  fst (main flaky down false blank) = Returned Running
  /\ proxmox (snd (main flaky down false blank)) <> None.
Proof.
  split; [reflexivity|].
  apply (running_has_handle flaky down false blank). reflexivity.
Defined.

(** ** More on the poll tick *)

Lemma button_list_resource (b : Button) :
  button_list b = list_of (button_resource b).
Proof. destruct b; reflexivity. Qed.

Lemma tick_keeps_handle (env : Env) : keeps proxmox (update_stats env).
Proof.
  unfold update_stats, set_error_state, setText, setValue, lift, logger_error.
  callback.
Qed.



Example effects_of_a_failed_listing :
  new_events online (snd (update_stats (qemu_down (status_of load)) online))
  = [Api (GET_status "pve"); Api (GET_qemu "pve");
     Logged ERROR "Proxmox API error: 500 Internal Server Error"].
Proof. vm_compute. reflexivity. Qed.

(** X9.  A tick that requests a listing and gets an answer drops the
    selection of that list: no row is selected in it afterwards, so the
    state update of that tab disables its four buttons until the operator
    selects a row again. *)
Theorem refresh_drops_selection (env : Env) (s : App) (p : ProxmoxAPI)
    (b : Button) (gs : list Guest) :
  proxmox s = Some p ->
  In (Api (list_request env (button_resource b)))
    (new_events s (snd (update_stats env s))) ->
  list_answer env (button_resource b) = Returned gs ->
  Widget.selectedItems (button_list b (ui (snd (update_stats env s)))) = []
  /\ button_enabled b (ui (snd (update_stats env s))) = false.
Proof.
  intros Hpx Hin Hans.
  pose proof (tick_list env s p _ gs Hpx Hin Hans) as Hl.
  rewrite <- button_list_resource in Hl.
  assert (Hsel : Widget.selectedItems
                   (button_list b (ui (snd (update_stats env s)))) = [])
    by now rewrite Hl.
  split; [exact Hsel|].
  assert (Hen : button_enabled b (ui (snd (update_stats env s)))
                = match Widget.selectedItems
                          (button_list b (ui (snd (update_stats env s)))) with
                  | [] => false
                  | _ => true
                  end) by (destruct b; reflexivity).
  now rewrite Hen, Hsel.
Qed.

Lemma refresh_drops_selection_witness :
  Widget.selectedItems
    (vm_list (ui (with_vm_rows [guest_item web] (Some 0%nat) online)))
  = [guest_item web]
  /\ Widget.selectedItems
       (button_list vm_stop_button
          (ui (snd (update_stats (server (status_of load) [web; db] [])
                      (with_vm_rows [guest_item web] (Some 0%nat) online)))))
     = []
  /\ button_enabled vm_stop_button
       (ui (snd (update_stats (server (status_of load) [web; db] [])
                   (with_vm_rows [guest_item web] (Some 0%nat) online))))
     = false.
Proof.
  split; [reflexivity|].
  apply (refresh_drops_selection (server (status_of load) [web; db] [])
           (with_vm_rows [guest_item web] (Some 0%nat) online)
           {| session := 0 |} vm_stop_button [web; db]).
  - reflexivity.
  - vm_compute. right. left. reflexivity.
  - reflexivity.
Defined.

(** X10.  A tick without a handle rewrites the four labels only: every gauge
    bar keeps the value and the text format it had, so percentages that were
    on display stay there next to the error texts. *)
Theorem disconnected_tick_keeps_bars (env : Env) (s : App) (g : Gauge) :
  proxmox s = None ->
  gauge_bar g (ui (snd (update_stats env s))) = gauge_bar g (ui s).
Proof.
  intros Hpx. unfold update_stats, bind, gets. rewrite Hpx.
  destruct g; reflexivity.
Qed.

Lemma disconnected_tick_keeps_bars_witness :
  proxmox (disconnected
             (snd (update_stats (server (status_of load) [] []) online))) = None
  /\ value (gauge_bar CPU
              (ui (disconnected
                     (snd (update_stats (server (status_of load) [] [])
                             online))))) = 68
  /\ gauge_bar CPU
       (ui (snd (update_stats down
                   (disconnected
                      (snd (update_stats (server (status_of load) [] [])
                              online))))))
     = gauge_bar CPU
         (ui (disconnected
                (snd (update_stats (server (status_of load) [] []) online)))).
Proof.
  split; [reflexivity|]. split; [vm_compute; reflexivity|].
  apply (disconnected_tick_keeps_bars down _ CPU). reflexivity.
Defined.

(** The host block, when it runs through: what each step returned, and the
    nine writes. *)
Lemma host_block_through (st : Status) :
  fst (host_block st) = None ->
  exists v1 x_used x_total v2 y_used y_total v3 v4 l1 l2 l3 l4 f,
    truediv (get (total (get (memory st) {| used := None; total := None |})) 1)
      (1024 ^ 3) = Returned x_total
    /\ int_float (if Num.Qpos_bool x_total
                  then Num.fmul (Num.fdiv x_used x_total) 100%Q else 0%Q)
       = Returned v2
    /\ truediv (get (total (get (rootfs st) {| used := None; total := None |})) 1)
         (1024 ^ 3) = Returned y_total
    /\ int_float (if Num.Qpos_bool y_total
                  then Num.fmul (Num.fdiv y_used y_total) 100%Q else 0%Q)
       = Returned v3
    /\ forall d,
         snd (host_block st) d
         = Widget.on_iodelay_bar (Widget.setValue v4)
             (Widget.on_iodelay_bar (Widget.setFormat f)
                (Widget.on_iodelay_label (fun _ => l4)
                   (Widget.on_disk_bar (Widget.setValue v3)
                      (Widget.on_disk_label (fun _ => l3)
                         (Widget.on_ram_bar (Widget.setValue v2)
                            (Widget.on_ram_label (fun _ => l2)
                               (Widget.on_cpu_bar (Widget.setValue v1)
                                  (Widget.on_cpu_label (fun _ => l1) d)))))))).
Proof.
  unfold host_block. tick_open.
  destruct (int_float (Num.fmul (Num.fl (get (cpu st) 0%Q)) 100%Q)) as [v1|e];
    tick_open; [|discriminate].
  destruct (c_int v1); tick_open; [|discriminate].
  destruct (truediv (get (used (get (memory st) _)) _) _) as [ru|e];
    tick_open; [|discriminate].
  destruct (truediv (get (total (get (memory st) _)) _) _) as [rt|e] eqn:Hrt;
    tick_open; [|discriminate].
  destruct (int_float (if Num.Qpos_bool rt then _ else _)) as [v2|e] eqn:Hv2;
    tick_open; [|discriminate].
  destruct (c_int v2); tick_open; [|discriminate].
  destruct (truediv (get (used (get (rootfs st) _)) _) _) as [du|e];
    tick_open; [|discriminate].
  destruct (truediv (get (total (get (rootfs st) _)) _) _) as [dt|e] eqn:Hdt;
    tick_open; [|discriminate].
  destruct (int_float (if Num.Qpos_bool dt then _ else _)) as [v3|e] eqn:Hv3;
    tick_open; [|discriminate].
  destruct (c_int v3); tick_open; [|discriminate].
  destruct (int_float (Num.fmul (Num.fl (get (wait st) 0%Q)) 100%Q)) as [v4|e];
    tick_open; [|discriminate].
  destruct (c_int v4); tick_open; [|discriminate].
  intros _. exists v1, ru, rt, v2, du, dt, v3, v4.
  do 5 eexists. repeat split; eassumption.
Qed.

(** A total that is not positive is not positive in GiB either, and the
    percentage is the literal 0. *)
Lemma nonpositive_total (t : Z) (x_used x_total : Q) (v : Z) :
  t <= 0 ->
  truediv t (1024 ^ 3) = Returned x_total ->
  int_float (if Num.Qpos_bool x_total
             then Num.fmul (Num.fdiv x_used x_total) 100%Q else 0%Q)
  = Returned v ->
  v = 0.
Proof.
  intros Ht Hdiv Hv.
  assert (Hx : x_total = Num.fl (inject_Z t / inject_Z (1024 ^ 3))).
  { unfold truediv in Hdiv.
    destruct (Num.is_inf _) in Hdiv; [discriminate|]. now injection Hdiv as <-. }
  assert (Hle : (x_total <= 0)%Q).
  { rewrite Hx. apply fl_nonpos. apply Qle_shift_div_r; [reflexivity|].
    rewrite Qmult_0_l. change 0%Q with (inject_Z 0). now rewrite <- Zle_Qle. }
  unfold Num.Qpos_bool in Hv. apply Qle_bool_iff in Hle. rewrite Hle in Hv.
  cbn [negb] in Hv. vm_compute in Hv. now injection Hv as <-.
Qed.

(** X11.  When the status reports a memory (or root filesystem) total that is
    zero or negative, a tick whose host block runs through (it goes on to
    request the VM listing) has not divided by it: the RAM (or Disk) gauge
    is set to 0. *)
Theorem nonpositive_total_shows_zero (env : Env) (s : App) (p : ProxmoxAPI)
    (st : Status) :
  proxmox s = Some p ->
  node_status_get env = Returned st ->
  In (Api (GET_qemu (PROXMOX_NODE env)))
    (new_events s (snd (update_stats env s))) ->
  (forall u t,
     memory st = Some u -> total u = Some t -> t <= 0 ->
     value (pyve_ram_bar (ui (snd (update_stats env s)))) = 0)
  /\ (forall u t,
        rootfs st = Some u -> total u = Some t -> t <= 0 ->
        value (pyve_disk_bar (ui (snd (update_stats env s)))) = 0).
Proof.
  intros Hpx Hst Hin. apply (tick_sent env s p _ Hpx) in Hin.
  assert (Hthrough : fst (host_block st) = None).
  { revert Hin Hst. poll_paths env; intros Hin [= <-];
      repeat match goal with
             | H : In _ (_ :: _) |- _ => destruct H as [H|H]; [discriminate H|]
             | H : In _ [] |- _ => destruct H
             end;
      assumption. }
  destruct (host_block_through st Hthrough)
    as (v1 & x_used & x_total & v2 & y_used & y_total & v3 & v4
        & l1 & l2 & l3 & l4 & f & Hx & Hv2 & Hy & Hv3 & Hshown).
  rewrite (tick_ui env s p Hpx).
  change (pyve_ram_bar (snd (snd (poll env)) (ui s)))
    with (gauge_bar RAM (snd (snd (poll env)) (ui s))).
  change (pyve_disk_bar (snd (snd (poll env)) (ui s)))
    with (gauge_bar Disk (snd (snd (poll env)) (ui s))).
  rewrite !(poll_gauges env st _ _ Hst), !Hshown. cbn [gauge_bar].
  split; intros u t Hu Ht Hle.
  - rewrite Hu in Hx. cbn [get] in Hx. rewrite Ht in Hx. cbn [get] in Hx.
    now rewrite (nonpositive_total t _ _ _ Hle Hx Hv2).
  - rewrite Hu in Hy. cbn [get] in Hy. rewrite Ht in Hy. cbn [get] in Hy.
    now rewrite (nonpositive_total t _ _ _ Hle Hy Hv3).
Qed.

Lemma nonpositive_total_shows_zero_witness :
  value (pyve_ram_bar (ui (with_ram_bar 37 online))) = 37
  /\ value (pyve_ram_bar
              (ui (snd (update_stats
                          (server {| cpu := None; cpuinfo := None;
                                     memory := Some {| used := Some 5;
                                                       total := Some 0 |};
                                     rootfs := None; wait := None |} [] [])
                          (with_ram_bar 37 online))))) = 0.
Proof.
  split; [reflexivity|].
  apply (proj1 (nonpositive_total_shows_zero
                  (server {| cpu := None; cpuinfo := None;
                             memory := Some {| used := Some 5;
                                               total := Some 0 |};
                             rootfs := None; wait := None |} [] [])
                  (with_ram_bar 37 online) {| session := 0 |} _
                  eq_refl eq_refl
                  ltac:(vm_compute; right; left; reflexivity))
           {| used := Some 5; total := Some 0 |} 0 eq_refl eq_refl).
  lia.
Defined.

(** ** From the refreshed list to the request *)






Example click_after_refresh :
  filter is_api
    (new_events
       (exec [Timeout (server (status_of load) [web; db] []);
              Selected vm (Some 0%nat)] online)
       (snd (clicked down vm_shutdown_button
               (exec [Timeout (server (status_of load) [web; db] []);
                      Selected vm (Some 0%nat)] online))))
  = [Api (POST_status "pve" vm 55 "shutdown")].
Proof. vm_compute. reflexivity. Qed.

(** ** The id a click resolves *)

Lemma int_acc_span_nonneg (s : string) :
  forall acc,
    0 <= acc -> 0 <= Text.int_acc acc (fst (Text.span Text.is_digit s)).
Proof.
  induction s as [|c s IH]; intros acc Hacc; cbn [Text.span].
  - exact Hacc.
  - destruct (Text.is_digit c) eqn:Hc; [|exact Hacc].
    specialize (IH (10 * acc + Text.digit_val c)).
    destruct (Text.span Text.is_digit s) as [a rest]. cbn [fst Text.int_acc] in *.
    apply IH. unfold Text.is_digit in Hc. apply andb_prop in Hc as [Hlo _].
    apply Nat.leb_le in Hlo. unfold Text.digit_val. lia.
Qed.

Lemma match_ID_here_nonneg (s g : string) :
  Text.match_ID_here s = Some g -> 0 <= Text.int_str g.
Proof.
  unfold Text.match_ID_here.
  destruct (Text.strip_prefix "ID:" s) as [rest|]; [|discriminate].
  destruct (Text.span Text.is_space rest) as [ws rest'].
  pose proof (int_acc_span_nonneg rest' 0 (Z.le_refl 0)) as H.
  destruct (Text.span Text.is_digit rest') as [ds tail]. cbn [fst] in H.
  destruct ds; [discriminate|]. intros Hg. injection Hg as <-. exact H.
Qed.

Lemma re_search_ID_nonneg (s g : string) :
  Text.re_search_ID s = Some g -> 0 <= Text.int_str g.
Proof.
  assert (Hunfold : forall t,
             Text.re_search_ID t
             = match Text.match_ID_here t with
               | Some g' => Some g'
               | None =>
                   match t with
                   | EmptyString => None
                   | String _ t' => Text.re_search_ID t'
                   end
               end) by (intros []; reflexivity).
  induction s as [|c s IH]; rewrite Hunfold.
  - destruct (Text.match_ID_here "") eqn:E; [|discriminate].
    intros H. injection H as <-. now apply (match_ID_here_nonneg "").
  - destruct (Text.match_ID_here (String c s)) eqn:E; [|exact IH].
    intros H. injection H as <-. now apply (match_ID_here_nonneg (String c s)).
Qed.

(** X13.  Whatever text the selected row holds, an id that
    [_get_selected_vmid] resolves is never negative: a guest whose id is
    negative cannot be addressed from the lists. *)
Theorem resolved_id_is_nonnegative (list_widget : Display -> QListWidget)
    (item_type : string) (s s' : App) (id : Z) :
  _get_selected_vmid list_widget item_type s = (Returned (Some id), s') ->
  0 <= id.
Proof.
  unfold _get_selected_vmid, bind, gets.
  destruct (Widget.selectedItems (list_widget (ui s))) as [|it others].
  - cbn. discriminate.
  - destruct (Text.re_search_ID (text it)) as [g|] eqn:E; unfold ret;
      intros H; [|discriminate].
    injection H as <- _. now apply (re_search_ID_nonneg (text it)).
Qed.

Lemma resolved_id_is_nonnegative_witness :
  _get_selected_vmid vm_list "VM"
    (with_vm_rows [guest_item web] (Some 0%nat) online)
  = (Returned (Some 101), with_vm_rows [guest_item web] (Some 0%nat) online)
  /\ 0 <= 101.
Proof.
  split; [reflexivity|].
  apply (resolved_id_is_nonnegative vm_list "VM"
           (with_vm_rows [guest_item web] (Some 0%nat) online)
           (with_vm_rows [guest_item web] (Some 0%nat) online) 101).
  reflexivity.
Defined.

(** ** Buttons *)

Lemma perform_action_no_warning (env : Env) (id : option Z) (a : Action)
    (r : Resource) (s : App) :
  existsb is_warning (new_events s (snd (_perform_action env id a r s)))
  = false.
Proof.
  destruct id as [id|]; [|now rewrite perform_action_None, new_events_same].
  destruct (proxmox s) as [p|] eqn:Hpx;
    [|now rewrite (perform_action_offline _ _ _ _ _ Hpx), new_events_same].
  rewrite (perform_action_online _ _ _ _ _ _ Hpx).
  unfold try_except, request, bind, emit, ret, raise.
  destruct (guest_status_post env r id a) as [[]|[detail|detail]]; cbn;
    trace_tail; reflexivity.
Qed.

(** X14.  The button state and the dispatcher agree: a click shows the
    "Select a ... first." warning exactly when the state update of its tab,
    run on the same window, would disable the button. *)
Theorem warning_iff_button_disabled (env : Env) (b : Button) (s : App) :
  existsb is_warning (new_events s (snd (clicked env b s)))
  = negb (button_enabled b (ui s)).
Proof.
  assert (Hen : button_enabled b (ui s)
                = match Widget.selectedItems (button_list b (ui s)) with
                  | [] => false
                  | _ => true
                  end) by (destruct b; reflexivity).
  rewrite Hen, clicked_unfold. unfold bind at 1.
  destruct (Widget.selectedItems (button_list b (ui s))) as [|it others] eqn:Hsel.
  - rewrite (get_selected_none _ _ _ Hsel), perform_action_None.
    cbn [snd]. now rewrite new_events_emit.
  - rewrite (get_selected_some _ _ _ _ _ Hsel).
    apply perform_action_no_warning.
Qed.

(** ** Repeated and reordered polls *)

Lemma offline_writes_twice d : offline_writes (offline_writes d) = offline_writes d.
Proof.
  destruct d as [? ? ? ? ? ? ? ? [? ?] [? ?]]. reflexivity.
Qed.

Lemma tick_display_offline (env : Env) (s : App) :
  proxmox s = None -> ui (snd (update_stats env s)) = offline_writes (ui s).
Proof.
  intros Hpx. unfold update_stats, bind, gets. rewrite Hpx. reflexivity.
Qed.

(** X15.  Polling is idempotent on the window: a second tick that gets the
    same answers (or the same failures) as the first leaves every widget as
    the first tick left it, with or without a handle. *)
Theorem tick_idempotent (env : Env) (s : App) :
  ui (snd (update_stats env (snd (update_stats env s))))
  = ui (snd (update_stats env s)).
Proof.
  pose proof (tick_keeps_handle env s) as Hk. cbv beta in Hk.
  destruct (proxmox s) as [p|] eqn:Hpx.
  - rewrite (tick_ui env _ p Hk), (tick_ui env s p Hpx).
    apply tidy_twice, poll_tidy.
  - now rewrite (tick_display_offline _ _ Hk), (tick_display_offline _ _ Hpx),
      offline_writes_twice.
Qed.

(** X16.  What a tick does does not depend on the order in which the backend
    lists the guests, as long as the ids within each listing are distinct:
    two answers that list the same guests produce the same window and the
    same effects. *)
Theorem tick_ignores_backend_order (env : Env) (s : App)
    (vms vms' cts cts' : list Guest) :
  Permutation vms vms' -> NoDup (map vmid_key vms) ->
  Permutation cts cts' -> NoDup (map vmid_key cts) ->
  update_stats (with_listings vms cts env) s
  = update_stats (with_listings vms' cts' env) s.
Proof.
  intros Hv Hvn Hc Hcn.
  pose proof (sorted_ignores_order vmid_key _ _ Hv Hvn) as Ev.
  pose proof (sorted_ignores_order vmid_key _ _ Hc Hcn) as Ec.
  destruct (proxmox s) as [p|] eqn:Hpx.
  - rewrite !(tick_run _ s p Hpx). f_equal.
    unfold polled, poll.
    cbn [with_listings PROXMOX_NODE node_status_get node_qemu_get node_lxc_get].
    unfold guest_rows. now rewrite Ev, Ec.
  - unfold update_stats, bind, gets. now rewrite Hpx.
Qed.

Lemma tick_ignores_backend_order_witness :
  update_stats (with_listings [web; db] [] (server (status_of load) [] []))
    online
  = update_stats (with_listings [db; web] [] (server (status_of load) [] []))
      online.
Proof.
  apply (tick_ignores_backend_order (server (status_of load) [] []) online
           [web; db] [db; web] [] []).
  - apply perm_swap.
  - constructor; [cbn; intros [H|[]]; discriminate H|].
    constructor; [intros []|constructor].
  - apply perm_nil.
  - constructor.
Defined.

Example listings_in_either_order :
  items (vm_list
           (ui (snd (update_stats
                       (with_listings [web; db] []
                          (server (status_of load) [] [])) online))))
  = map guest_item [db; web]
  /\ items (vm_list
              (ui (snd (update_stats
                          (with_listings [db; web] []
                             (server (status_of load) [] [])) online))))
     = map guest_item [db; web].
Proof. vm_compute. split; reflexivity. Qed.

(** X18.  A tick never lets an exception out of the callback.  With a handle,
    whatever the [try] block raises is caught and logged: a request that
    fails, a percentage that is infinite or too large for the bar's C [int],
    a byte count too large for a float.  Without a handle, nothing it does
    can raise. *)
Theorem tick_never_raises (env : Env) (s : App) :
  fst (update_stats env s) = Returned tt.
Proof.
  destruct (proxmox s) as [p|] eqn:Hpx.
  - now rewrite (tick_run env s p Hpx).
  - unfold update_stats, bind, gets. now rewrite Hpx.
Qed.
